(** * A shallow embedding of the voice assistant's dialogue pipeline

    The development follows the layout of the repository:
    - [PyStr], [Py]  : the Python strings, values, exceptions the code uses
    - [Schemas]      : src/schemas.py      (typed records and their validation)
    - [Config]       : src/config.py
    - [Store]        : the namespaced key/value store the memory manager talks to
    - [Effects]      : the store and the trace of what the program does outside
    - [Voice_io]     : src/voice_io.py     (speech text clean-up, playback)
    - [Memory_store] : src/memory_store.py (class MemoryManager)
    - [Agent_nodes]  : src/agent_nodes.py  (the four pipeline stages)
    - [Main]         : src/main.py         (the graph that wires the stages)
    followed by the properties of each, module by module, and by runs on
    concrete inputs.

    Python strings are modelled as [string]: a sequence of characters with
    code points below 256, one [ascii] per character. *)

From Stdlib Require Import Ascii String List Arith Bool Lia ZArith.
From stdpp Require Import base gmap strings.
Import ListNotations.
Local Open Scope string_scope.
Set Warnings "-register-all".

(** ** Python string primitives *)

Module PyStr.

Definition nl : ascii := "010"%char.
Definition star : ascii := "*"%char.

(** [s.startswith(p)], returning what follows the prefix. *)
Fixpoint strip_prefix (p s : string) : option string :=
  match p with
  | EmptyString => Some s
  | String a p' =>
    match s with
    | EmptyString => None
    | String b s' => if Ascii.eqb a b then strip_prefix p' s' else None
    end
  end.

(** Length of the longest prefix of [s] whose characters all satisfy [P]. *)
Fixpoint run_length (P : ascii -> bool) (s : string) : nat :=
  match s with
  | EmptyString => 0
  | String c t => if P c then S (run_length P t) else 0
  end.

(** The class [\s] of the [re] module on code points below 256
    (the characters for which [str.isspace] holds). *)
Definition is_space (c : ascii) : bool :=
  let n := nat_of_ascii c in
  ((9 <=? n) && (n <=? 13) || (28 <=? n) && (n <=? 32)
   || (n =? 133) || (n =? 160))%nat.

Definition non_space (c : ascii) : bool := negb (is_space c).

(** A matcher gives the length of the (greedy) match of a pattern at
    the very start of its argument, or [None]. *)
Definition matcher := string -> option nat.

(** [re.sub(pattern, repl, text)] and [text.replace(old, new)] for a
    pattern that never matches the empty string: the text is scanned
    from the left; where the pattern matches, [repl] is emitted and the
    scan resumes after the match; other characters are copied.
    [skip] counts the characters of the current match still to drop. *)
Fixpoint sub_from (m : matcher) (repl : string) (skip : nat) (s : string) : string :=
  match s with
  | EmptyString => EmptyString
  | String c t =>
    match skip with
    | S k => sub_from m repl k t
    | O =>
      match m s with
      | Some (S k) => repl ++ sub_from m repl k t
      | _ => String c (sub_from m repl O t)
      end
    end
  end.

Definition re_sub (m : matcher) (repl s : string) : string := sub_from m repl 0 s.

(** The pattern of a literal, non-empty string. *)
Definition literal (old : string) : matcher :=
  fun s => match strip_prefix old s with
           | Some _ => Some (String.length old)
           | None => None
           end.

Definition replace (old new s : string) : string := re_sub (literal old) new s.

(** [s[:n]] *)
Fixpoint take (n : nat) (s : string) : string :=
  match n, s with
  | S k, String c t => String c (take k t)
  | _, _ => EmptyString
  end.

(** Case of the ASCII letters. *)
Definition is_lower (c : ascii) : bool :=
  let n := nat_of_ascii c in ((97 <=? n) && (n <=? 122))%nat.
Definition is_upper (c : ascii) : bool :=
  let n := nat_of_ascii c in ((65 <=? n) && (n <=? 90))%nat.
Definition upper (c : ascii) : ascii :=
  if is_lower c then ascii_of_nat (nat_of_ascii c - 32) else c.
Definition lower (c : ascii) : ascii :=
  if is_upper c then ascii_of_nat (nat_of_ascii c + 32) else c.

Fixpoint map_chars (f : ascii -> ascii) (s : string) : string :=
  match s with
  | EmptyString => EmptyString
  | String c t => String (f c) (map_chars f t)
  end.

(** A text of ASCII characters only: [s.isascii()]. *)
Fixpoint is_ascii (s : string) : bool :=
  match s with
  | EmptyString => true
  | String c t => (nat_of_ascii c <? 128)%nat && is_ascii t
  end.

(** [s.capitalize()] on an ASCII text: first character upper-cased, the
    rest lower-cased.  Beyond ASCII the case mapping is Unicode's, which
    may leave the code points below 256 (and change the length), so there
    [str.capitalize] is a collaborator: see [Agent_nodes.Services]. *)
Definition ascii_capitalize (s : string) : string :=
  match s with
  | EmptyString => EmptyString
  | String c t => String (upper c) (map_chars lower t)
  end.

(** [sep.join(l)] *)
Fixpoint join (sep : string) (l : list string) : string :=
  match l with
  | [] => EmptyString
  | [x] => x
  | x :: rest => x ++ sep ++ join sep rest
  end.

(** Truthiness of a string: [if s:] *)
Definition truthy (s : string) : bool :=
  match s with EmptyString => false | _ => true end.

(** [sub in s] *)
Fixpoint contains (sub s : string) : bool :=
  match strip_prefix sub s with
  | Some _ => true
  | None => match s with
            | EmptyString => false
            | String _ t => contains sub t
            end
  end.

End PyStr.

(** ** Python values, exceptions and results *)

Module Py.

Inductive exn : Type :=
| ValidationError   (* pydantic: a value does not fit the declared shape *)
| KeyError
| TypeError
| AttributeError
| ValueError
| ServiceError (what : string).   (* a remote collaborator failed *)

Inductive result (A : Type) : Type :=
| Ok (a : A)
| Raise (e : exn).
Arguments Ok {A} a.
Arguments Raise {A} e.

Definition bind {A B} (r : result A) (k : A -> result B) : result B :=
  match r with
  | Ok a => k a
  | Raise e => Raise e
  end.

Definition of_option {A} (e : exn) (o : option A) : result A :=
  match o with
  | Some a => Ok a
  | None => Raise e
  end.

(** A list comprehension whose body may raise: the first exception wins. *)
Fixpoint map_result {A B} (f : A -> result B) (l : list A) : result (list B) :=
  match l with
  | [] => Ok []
  | x :: t => bind (f x) (fun y => bind (map_result f t) (fun ys => Ok (y :: ys)))
  end.

(** [datetime.datetime] *)
Record datetime : Type := {
  year : nat; month : nat; day : nat;
  hour : nat; minute : nat; second : nat; microsecond : nat
}.

(** A Python [float], by its binary64 bit pattern. *)
Record pyfloat : Type := { float_bits : N }.

(** [1.0] *)
Definition float_one : pyfloat := {| float_bits := 4607182418800017408 |}.

(** The values kept in the store: JSON-like data with string keys, plus
    [datetime] objects.  A dictionary keeps its insertion order. *)
Inductive pyval : Type :=
| PyNone
| PyBool (b : bool)
| PyInt (z : Z)
| PyFloat (f : pyfloat)
| PyStr (s : string)
| PyList (l : list pyval)
| PyDict (d : list (string * pyval))
| PyDatetime (t : datetime).

(** [d.get(k)] *)
Fixpoint dict_get {V} (k : string) (d : list (string * V)) : option V :=
  match d with
  | [] => None
  | (k', v) :: rest => if String.eqb k k' then Some v else dict_get k rest
  end.

Definition dict_keys {V} (d : list (string * V)) : list string := map fst d.

(** [l[-n:]] for [n > 0] *)
Definition last_n {A} (n : nat) (l : list A) : list A := skipn (length l - n) l.

End Py.
Export Py.

(** ** src/schemas.py *)

Module Schemas.

(** What pydantic does to scalar fields it may convert (a [float] from
    an [int] or a numeric string, a [datetime] from an ISO string or a
    number) is the library's business; only this much is relied on:
    a value already of the declared type is taken as it is. *)
Class Pydantic : Type := {
  float_validate : pyval -> option pyfloat;
  datetime_validate : pyval -> option datetime;
  float_validate_float : forall f, float_validate (PyFloat f) = Some f;
  datetime_validate_datetime : forall t, datetime_validate (PyDatetime t) = Some t
}.

(** Only values of the declared type pass. *)
#[export] Instance strict_pydantic : Pydantic := {|
  float_validate := fun v => match v with PyFloat f => Some f | _ => None end;
  datetime_validate := fun v => match v with PyDatetime t => Some t | _ => None end;
  float_validate_float := fun f => eq_refl;
  datetime_validate_datetime := fun t => eq_refl
|}.

(** Validators of the field types used by the models. *)
Definition v_str (v : pyval) : option string :=
  match v with PyStr s => Some s | _ => None end.

Definition v_optional {A} (f : pyval -> option A) (v : pyval) : option (option A) :=
  match v with
  | PyNone => Some None
  | _ => match f v with Some a => Some (Some a) | None => None end
  end.

Fixpoint v_all {A B} (f : A -> option B) (l : list A) : option (list B) :=
  match l with
  | [] => Some []
  | x :: t =>
    match f x, v_all f t with
    | Some y, Some ys => Some (y :: ys)
    | _, _ => None
    end
  end.

Definition v_list {A} (f : pyval -> option A) (v : pyval) : option (list A) :=
  match v with PyList l => v_all f l | _ => None end.

Definition v_dict (v : pyval) : option (list (string * pyval)) :=
  match v with PyDict d => Some d | _ => None end.

Definition v_dict_of {A} (f : pyval -> option A) (v : pyval) : option (list (string * A)) :=
  match v with
  | PyDict d => v_all (fun kv => match f (snd kv) with
                                 | Some a => Some (fst kv, a)
                                 | None => None
                                 end) d
  | _ => None
  end.

(** A field with a default: the default when the key is missing, the
    validated value otherwise. *)
Definition field {A} (d : list (string * pyval)) (k : string)
           (default : A) (f : pyval -> option A) : option A :=
  match dict_get k d with
  | None => Some default
  | Some v => f v
  end.

(** A required field. *)
Definition required {A} (d : list (string * pyval)) (k : string)
           (f : pyval -> option A) : option A :=
  match dict_get k d with
  | None => None
  | Some v => f v
  end.

Module VoicePreferences.
Record t : Type := {
  preferred_voice : string;
  speaking_rate : pyfloat;
  verbosity_level : string;
  interruption_handling : string;
  confirmation_required : list string
}.

Definition default : t := {|
  preferred_voice := "default";
  speaking_rate := float_one;
  verbosity_level := "medium";
  interruption_handling := "pause";
  confirmation_required := []
|}.

Definition fields : list string :=
  ["preferred_voice"; "speaking_rate"; "verbosity_level";
   "interruption_handling"; "confirmation_required"].

Definition validate `{Pydantic} (v : pyval) : option t :=
  match v with
  | PyDict d =>
    match field d "preferred_voice" "default" v_str,
          field d "speaking_rate" float_one float_validate,
          field d "verbosity_level" "medium" v_str,
          field d "interruption_handling" "pause" v_str,
          field d "confirmation_required" [] (v_list v_str) with
    | Some a, Some b, Some c, Some e, Some f =>
      Some {| preferred_voice := a; speaking_rate := b; verbosity_level := c;
              interruption_handling := e; confirmation_required := f |}
    | _, _, _, _, _ => None
    end
  | _ => None
  end.
End VoicePreferences.

Module UserProfile.
Record t : Type := {
  name : option string;
  role : option string;
  communication_preferences : option (list (string * pyval));
  interests : list string;
  expertise : list string;
  voice_preferences : VoicePreferences.t
}.

Definition fields : list string :=
  ["name"; "role"; "communication_preferences"; "interests"; "expertise";
   "voice_preferences"].

(** [UserProfile.model_validate(value)]: the class sets no
    [model_config], so keys that are not fields are ignored. *)
Definition model_validate `{Pydantic} (v : pyval) : result t :=
  match v with
  | PyDict d =>
    match field d "name" None (v_optional v_str),
          field d "role" None (v_optional v_str),
          field d "communication_preferences" None (v_optional v_dict),
          field d "interests" [] (v_list v_str),
          field d "expertise" [] (v_list v_str),
          field d "voice_preferences" VoicePreferences.default
                VoicePreferences.validate with
    | Some a, Some b, Some c, Some e, Some f, Some g =>
      Ok {| name := a; role := b; communication_preferences := c;
            interests := e; expertise := f; voice_preferences := g |}
    | _, _, _, _, _, _ => Raise ValidationError
    end
  | _ => Raise ValidationError
  end.
End UserProfile.

Module BusinessEntity.
Record t : Type := {
  name : string;
  entity_type : string;
  attributes : list (string * pyval);
  relationships : list (list (string * string))
}.

Definition fields : list string :=
  ["name"; "entity_type"; "attributes"; "relationships"].

Definition model_validate (v : pyval) : result t :=
  match v with
  | PyDict d =>
    match required d "name" v_str,
          required d "entity_type" v_str,
          field d "attributes" [] v_dict,
          field d "relationships" [] (v_list (v_dict_of v_str)) with
    | Some a, Some b, Some c, Some e =>
      Ok {| name := a; entity_type := b; attributes := c; relationships := e |}
    | _, _, _, _ => Raise ValidationError
    end
  | _ => Raise ValidationError
  end.
End BusinessEntity.

Module ConversationContext.
Record t : Type := {
  recent_topics : list string;
  unresolved_questions : list string;
  interrupted_flows : list (list (string * pyval));
  last_interaction : option datetime
}.

(** [ConversationContext()] *)
Definition default : t := {|
  recent_topics := [];
  unresolved_questions := [];
  interrupted_flows := [];
  last_interaction := None
|}.

Definition model_validate `{Pydantic} (v : pyval) : result t :=
  match v with
  | PyDict d =>
    match field d "recent_topics" [] (v_list v_str),
          field d "unresolved_questions" [] (v_list v_str),
          field d "interrupted_flows" [] (v_list v_dict),
          field d "last_interaction" None (v_optional datetime_validate) with
    | Some a, Some b, Some c, Some e =>
      Ok {| recent_topics := a; unresolved_questions := b;
            interrupted_flows := c; last_interaction := e |}
    | _, _, _, _ => Raise ValidationError
    end
  | _ => Raise ValidationError
  end.

(** [context.model_dump()] *)
Definition model_dump (c : t) : pyval :=
  PyDict [("recent_topics", PyList (map PyStr (recent_topics c)));
          ("unresolved_questions", PyList (map PyStr (unresolved_questions c)));
          ("interrupted_flows", PyList (map PyDict (interrupted_flows c)));
          ("last_interaction",
           match last_interaction c with
           | None => PyNone
           | Some t => PyDatetime t
           end)].
End ConversationContext.

End Schemas.

(** ** src/config.py *)

Module Config.
Definition DEFAULT_USER_ID := "default-user".
Definition MEMORY_NAMESPACE_USER_PROFILE := "user_profile".
Definition MEMORY_NAMESPACE_BUSINESS := "business_knowledge".
Definition MEMORY_NAMESPACE_CONVERSATION := "conversation_history".
Definition MAX_CONVERSATION_HISTORY := 10.
End Config.

(** ** Conversation messages: dictionaries with a role and a content *)

Module Message.
Record t : Type := { role : string; content : string }.

(** The dictionary [{"role": ..., "content": ...}]. *)
Definition to_value (m : t) : pyval :=
  PyDict [("role", PyStr (role m)); ("content", PyStr (content m))].
End Message.

(** ** The memory store

    Modelled from the spec: the store ([InMemoryStore] of the graph
    library) is a collaborator whose code is not part of the repository;
    its contract is [put(namespace, key, value)], an upsert, and
    [search(namespace, query, limit, key)], which lists the records of a
    namespace, optionally filtered by key equality, ranked by relevance
    to a query and cut to a limit.  Records are kept in insertion order;
    overwriting a record keeps its place.  Either call may fail (an
    index or service failure), which the store raises to its caller. *)

Module Store.

Definition namespace : Type := string * string.   (* (memory kind, user id) *)

Record Item : Type := {
  item_namespace : namespace;
  key : string;
  value : pyval
}.

Definition t : Type := list Item.

(** The relevance order of the embedding index, for a query. *)
Class Index : Type := { rank : string -> list Item -> list Item }.

(** An index that leaves the records in insertion order. *)
Definition insertion_order : Index := {| rank := fun _ l => l |}.

(** The failures of the store: whether a [put] or a [search], made with
    these arguments on this store, fails, and with what error.  A call
    that fails leaves the store as it was. *)
Class Faults : Type := {
  put_fault : namespace -> string -> pyval -> list Item -> option exn;
  search_fault : namespace -> option string -> option nat -> option string
                 -> list Item -> option exn
}.

(** A store that never fails. *)
Definition reliable : Faults := {|
  put_fault := fun _ _ _ _ => None;
  search_fault := fun _ _ _ _ _ => None
|}.

(** A store that has become unavailable: every call fails. *)
Definition unavailable : Faults := {|
  put_fault := fun _ _ _ _ => Some (ServiceError "store unavailable");
  search_fault := fun _ _ _ _ _ => Some (ServiceError "store unavailable")
|}.

Definition same_namespace (a b : namespace) : bool :=
  String.eqb (fst a) (fst b) && String.eqb (snd a) (snd b).

Definition at_key (ns : namespace) (k : string) (it : Item) : bool :=
  same_namespace ns (item_namespace it) && String.eqb k (key it).

Fixpoint put (ns : namespace) (k : string) (v : pyval) (s : t) : t :=
  match s with
  | [] => [ {| item_namespace := ns; key := k; value := v |} ]
  | it :: rest =>
    if at_key ns k it
    then {| item_namespace := ns; key := k; value := v |} :: rest
    else it :: put ns k v rest
  end.

Definition in_namespace (ns : namespace) (s : t) : list Item :=
  List.filter (fun it => same_namespace ns (item_namespace it)) s.

Definition search `{Index} (ns : namespace) (query : option string)
           (limit : option nat) (key_ : option string) (s : t) : list Item :=
  let items := in_namespace ns s in
  let items := match key_ with
               | Some k => List.filter (fun it => String.eqb k (key it)) items
               | None => items
               end in
  let items := match query with
               | Some q => rank q items
               | None => items
               end in
  match limit with
  | Some n => firstn n items
  | None => items
  end.

(** The record stored under a key of a namespace, if any. *)
Definition get (ns : namespace) (k : string) (s : t) : option pyval :=
  match List.filter (at_key ns k) s with
  | it :: _ => Some (value it)
  | [] => None
  end.

End Store.

(** ** Effects: the store, and what the program does to the outside *)

Module Effects.

Inductive event : Type :=
| EvLog (msg : string)                                    (* logger.info *)
| EvSpeak (text : string)                                 (* text sent to speech synthesis and played *)
| EvPut (ns : Store.namespace) (k : string) (v : pyval)   (* a record written by store.put *)
| EvComplete (prompt : list Message.t).                   (* llm.invoke *)

Record world : Type := { w_store : Store.t; w_trace : list event }.

(** A computation reads and changes the world and returns or raises;
    what it did before raising stays done. *)
Definition M (A : Type) : Type := world -> result A * world.

Definition ret {A} (a : A) : M A := fun w => (Ok a, w).

Definition raise {A} (e : exn) : M A := fun w => (Raise e, w).

Definition bind {A B} (c : M A) (k : A -> M B) : M B :=
  fun w => match c w with
           | (Ok a, w') => k a w'
           | (Raise e, w') => (Raise e, w')
           end.

Definition lift {A} (r : result A) : M A := fun w => (r, w).

Definition emit (e : event) : M unit :=
  fun w => (Ok tt, {| w_store := w_store w; w_trace := w_trace w ++ [e] |}).

(** [store.put(namespace, key, value)]: raises when the store fails,
    writes the record otherwise. *)
Definition store_put `{Store.Faults} (ns : Store.namespace) (k : string) (v : pyval)
  : M unit :=
  fun w => match Store.put_fault ns k v (w_store w) with
           | Some e => (Raise e, w)
           | None => (Ok tt, {| w_store := Store.put ns k v (w_store w);
                                w_trace := w_trace w ++ [EvPut ns k v] |})
           end.

(** [store.search(namespace, query=..., limit=..., key=...)]: raises when
    the store fails, lists the records otherwise. *)
Definition store_search `{Store.Index} `{Store.Faults} (ns : Store.namespace)
           (query : option string) (limit : option nat) (key_ : option string)
  : M (list Store.Item) :=
  fun w => match Store.search_fault ns query limit key_ (w_store w) with
           | Some e => (Raise e, w)
           | None => (Ok (Store.search ns query limit key_ (w_store w)), w)
           end.

(** The records written by [store.put] among the events. *)
Definition is_put (e : event) : bool :=
  match e with EvPut _ _ _ => true | _ => false end.

Definition is_speak (e : event) : bool :=
  match e with EvSpeak _ => true | _ => false end.

Definition is_complete (e : event) : bool :=
  match e with EvComplete _ => true | _ => false end.

End Effects.

Declare Scope py_scope.
Delimit Scope py_scope with py.
Notation "x <- c ;; k" := (Effects.bind c (fun x => k))
  (at level 100, c at next level, right associativity) : py_scope.
Notation "c ;;; k" := (Effects.bind c (fun _ => k))
  (at level 100, right associativity) : py_scope.

(** ** src/voice_io.py *)

Module Voice_io.
Import PyStr Effects.
Local Open Scope py_scope.

(** [r'https?://\S+'] at the start of the text.  The optional letter s
    is tried first and given up when the rest does not match. *)
Definition match_url : matcher := fun s =>
  match strip_prefix "http" s with
  | None => None
  | Some r =>
    let rest (r' : string) (len : nat) : option nat :=
      match strip_prefix "://" r' with
      | None => None
      | Some r'' =>
        match run_length non_space r'' with
        | O => None
        | S n => Some (len + 3 + S n)
        end
      end in
    match (match strip_prefix "s" r with
           | Some r' => rest r' 5
           | None => None
           end) with
    | Some n => Some n
    | None => rest r 4
    end
  end.

(** [r'\n\n+'] at the start of the text. *)
Definition match_newlines : matcher := fun s =>
  match s with
  | String a (String b t) =>
    if Ascii.eqb nl a && Ascii.eqb nl b
    then Some (2 + run_length (Ascii.eqb nl) t)
    else None
  | _ => None
  end.

Definition optimize_for_speech (text : string) : string :=
  let text := re_sub match_url "link" text in
  let text := re_sub match_newlines (String nl EmptyString) text in
  let text := replace "**" "" text in
  text.

(** [speak(text)]: nothing on an empty text; otherwise the text without
    its [**] marks goes to speech synthesis and is played.  A failure of
    synthesis or playback is caught and printed inside [speak]. *)
Definition speak (text : string) : M unit :=
  if negb (truthy text) then ret tt
  else
    let cleaned_text := replace "**" "" text in
    emit (EvSpeak cleaned_text).

End Voice_io.

(** ** src/memory_store.py *)

Module Memory_store.
Import Schemas Effects.
Local Open Scope py_scope.

(** The two extraction policies built in [MemoryManager.__init__]
    ([create_memory_store_manager]): given the messages and the user id
    they write to the store, or fail. *)
Class ExtractionPolicy : Type := {
  profile_manager_invoke : list Message.t -> string -> Store.t -> result unit * Store.t;
  business_manager_invoke : list Message.t -> string -> Store.t -> result unit * Store.t
}.

(** A record found by [search_memory]: a validated profile or entity,
    or the stored value of a conversation. *)
Inductive hit : Type :=
| HProfile (p : UserProfile.t)
| HEntity (e : BusinessEntity.t)
| HValue (v : pyval).

Section MemoryManager.
Context {pydantic : Pydantic} {index : Store.Index} {faults : Store.Faults}
        {policy : ExtractionPolicy}.

Definition get_user_profile (user_id : string) : M (option UserProfile.t) :=
  let namespace := (Config.MEMORY_NAMESPACE_USER_PROFILE, user_id) in
  results <- store_search namespace None None None ;;
  match results with
  | first :: _ =>
    p <- lift (UserProfile.model_validate (Store.value first)) ;;
    ret (Some p)
  | [] => ret None
  end.

Definition update_user_profile (messages : list Message.t) (user_id : string) : M unit :=
  fun w =>
    let (r, s) := profile_manager_invoke messages user_id (w_store w) in
    (r, {| w_store := s; w_trace := w_trace w |}).

Definition get_business_entities (query : option string) (user_id : string)
  : M (list BusinessEntity.t) :=
  let namespace := (Config.MEMORY_NAMESPACE_BUSINESS, user_id) in
  results <- match query with
             | Some q => if PyStr.truthy q
                         then store_search namespace (Some q) None None
                         else store_search namespace None None None
             | None => store_search namespace None None None
             end ;;
  lift (map_result (fun item => BusinessEntity.model_validate (Store.value item)) results).

Definition update_business_knowledge (messages : list Message.t) (user_id : string) : M unit :=
  fun w =>
    let (r, s) := business_manager_invoke messages user_id (w_store w) in
    (r, {| w_store := s; w_trace := w_trace w |}).

(** [conversation_id] is the string of the identifier drawn by
    [uuid.uuid4()], [timestamp] is [datetime.now().isoformat()]. *)
Definition save_conversation (conversation_id timestamp : string)
           (messages : list Message.t) (user_id : string) : M unit :=
  let namespace := (Config.MEMORY_NAMESPACE_CONVERSATION, user_id) in
  store_put namespace conversation_id
            (PyDict [("timestamp", PyStr timestamp);
                     ("messages", PyList (map Message.to_value messages))]).

Definition get_conversation_context (user_id : string) : M ConversationContext.t :=
  let namespace := (Config.MEMORY_NAMESPACE_CONVERSATION, user_id) in
  results <- store_search namespace None None (Some "context") ;;
  match results with
  | first :: _ => lift (ConversationContext.model_validate (Store.value first))
  | [] =>
    let context := ConversationContext.default in
    store_put namespace "context" (ConversationContext.model_dump context) ;;;
    ret context
  end.

Definition update_conversation_context (context : ConversationContext.t)
           (user_id : string) : M unit :=
  let namespace := (Config.MEMORY_NAMESPACE_CONVERSATION, user_id) in
  store_put namespace "context" (ConversationContext.model_dump context).

Definition search_memory (query : string) (user_id : string)
  : M (gmap string (list hit)) :=
  let results : gmap string (list hit) :=
    <["conversation_history" := []]>
      (<["business_knowledge" := []]> (<["user_profile" := []]> ∅)) in
  (* Search user profile *)
  let profile_namespace := (Config.MEMORY_NAMESPACE_USER_PROFILE, user_id) in
  profile_results <- store_search profile_namespace (Some query) (Some 1) None ;;
  results <- match profile_results with
             | [] => ret results
             | _ =>
               l <- lift (map_result
                            (fun item => Py.bind (UserProfile.model_validate (Store.value item))
                                                 (fun p => Ok (HProfile p)))
                            profile_results) ;;
               ret (<["user_profile" := l]> results)
             end ;;
  (* Search business knowledge *)
  let business_namespace := (Config.MEMORY_NAMESPACE_BUSINESS, user_id) in
  business_results <- store_search business_namespace (Some query) (Some 5) None ;;
  results <- match business_results with
             | [] => ret results
             | _ =>
               l <- lift (map_result
                            (fun item => Py.bind (BusinessEntity.model_validate (Store.value item))
                                                 (fun e => Ok (HEntity e)))
                            business_results) ;;
               ret (<["business_knowledge" := l]> results)
             end ;;
  (* Search conversation history *)
  let conversation_namespace := (Config.MEMORY_NAMESPACE_CONVERSATION, user_id) in
  conversation_results <- store_search conversation_namespace (Some query) (Some 3) None ;;
  results <- match conversation_results with
             | [] => ret results
             | _ =>
               ret (<["conversation_history" :=
                        map (fun item => HValue (Store.value item))
                            (List.filter (fun item => negb (String.eqb (Store.key item) "context"))
                                    conversation_results)]> results)
             end ;;
  ret results.

End MemoryManager.
End Memory_store.

(** ** src/agent_nodes.py *)

Module Agent_nodes.
Import PyStr Schemas Effects Voice_io Memory_store.
Local Open Scope py_scope.

Notation "x <~ c ;; k" := (Py.bind c (fun x => k))
  (at level 100, c at next level, right associativity) : py_scope.

(** State for the voice assistant.  The two optional keys are absent
    until a stage sets them. *)
Record AssistantState : Type := {
  messages : list Message.t;
  user_id : string;
  memory_search_results : option (gmap string (list hit));
  spoken_response : option string
}.

(** Collaborators of the stages: the chat model, [str()] of an attribute
    value and of the dictionary of search results inside an f-string,
    [datetime.fromisoformat(s).strftime('%Y-%m-%d %H:%M')], and
    [str.capitalize], of which only its value on ASCII texts is relied
    on. *)
Class Services : Type := {
  llm_invoke : list Message.t -> result string;
  py_str : pyval -> string;
  results_str : gmap string (list hit) -> string;
  format_timestamp : string -> result string;
  str_capitalize : string -> string;
  str_capitalize_ascii :
    forall s, is_ascii s = true -> str_capitalize s = ascii_capitalize s
}.

Section Nodes.
Context {pydantic : Pydantic} {index : Store.Index} {faults : Store.Faults}
        {policy : ExtractionPolicy} {services : Services}.

Definition fallback_prompt := "I didn't catch that. Could you please try again?".

(** [transcription] is what [record_audio()] returned. *)
Definition voice_input (transcription : string) (state : AssistantState)
  : M AssistantState :=
  emit (EvLog "Recording user input...") ;;;
  if negb (truthy transcription) then
    speak fallback_prompt ;;;
    ret state
  else
      let messages := (messages state ++ [ {| Message.role := "user";
                                            Message.content := transcription |} ])%list in
    emit (EvLog ("User input: " ++ transcription)) ;;;
    ret {| messages := messages; user_id := user_id state;
           memory_search_results := memory_search_results state;
           spoken_response := spoken_response state |}.

(** The content of the last message with role user, if any. *)
Definition last_user_message (messages : list Message.t) : option string :=
  match List.find (fun message => String.eqb (Message.role message) "user") (rev messages) with
  | Some message => Some (Message.content message)
  | None => None
  end.

Definition with_results (state : AssistantState) (r : gmap string (list hit))
  : AssistantState :=
  {| messages := messages state; user_id := user_id state;
     memory_search_results := Some r;
     spoken_response := spoken_response state |}.

Definition search_memory (state : AssistantState) : M AssistantState :=
  emit (EvLog "Searching memory...") ;;;
  let user_id := user_id state in
  let messages := messages state in
  match messages with
  | [] => ret (with_results state ∅)
  | _ =>
    match last_user_message messages with
    | None => ret (with_results state ∅)
    | Some last_message =>
      if negb (truthy last_message) then ret (with_results state ∅)
      else
        search_results <- Memory_store.search_memory last_message user_id ;;
        emit (EvLog ("Memory search results: " ++ results_str search_results)) ;;;
        ret (with_results state search_results)
    end
  end.

Definition truthy_opt (o : option string) : bool :=
  match o with Some s => truthy s | None => false end.

Definition format_profile (first : hit) : result (list string) :=
  match first with
  | HProfile profile =>
    let formatted := ["USER PROFILE:"] in
    let formatted :=
      if truthy_opt (UserProfile.name profile)
      then app formatted ["- Name: " ++ default "" (UserProfile.name profile)]
      else formatted in
    let formatted :=
      if truthy_opt (UserProfile.role profile)
      then app formatted ["- Role: " ++ default "" (UserProfile.role profile)]
      else formatted in
    let formatted :=
      match UserProfile.interests profile with
      | [] => formatted
      | l => app formatted ["- Interests: " ++ join ", " l]
      end in
    let formatted :=
      match UserProfile.expertise profile with
      | [] => formatted
      | l => app formatted ["- Expertise: " ++ join ", " l]
      end in
    Ok formatted
  | _ => Raise AttributeError
  end.

Definition format_entity (h : hit) : result (list string) :=
  match h with
  | HEntity entity =>
    Ok (("- " ++ str_capitalize (BusinessEntity.entity_type entity) ++ ": "
              ++ BusinessEntity.name entity)
        :: map (fun kv => "  * " ++ fst kv ++ ": " ++ py_str (snd kv))
               (BusinessEntity.attributes entity))
  | _ => Raise AttributeError
  end.

(** One line of a past conversation.  A message that is not a
    dictionary of two strings raises. *)
Definition format_message (msg : pyval) : result string :=
  match msg with
  | PyDict d =>
    role <~ of_option KeyError (dict_get "role" d) ;;
    role <~ of_option AttributeError (v_str role) ;;
    let role := str_capitalize role in
    content <~ of_option KeyError (dict_get "content" d) ;;
    content <~ of_option TypeError (v_str content) ;;
    let content := if Nat.ltb 100 (String.length content)
                   then take 100 content ++ "..."
                   else content in
    Ok ("  * " ++ role ++ ": " ++ content)
  | _ => Raise TypeError
  end.

Definition format_conversation (h : hit) : result (list string) :=
  match h with
  | HValue (PyDict conversation) =>
    timestamp <~ of_option KeyError (dict_get "timestamp" conversation) ;;
    timestamp <~ of_option TypeError (v_str timestamp) ;;
    date <~ format_timestamp timestamp ;;
    lines <~ match dict_get "messages" conversation with
             | Some (PyList l) => map_result format_message (last_n 2 l)
             | Some _ => Raise TypeError
             | None => Ok []
             end ;;
    Ok (("- Date: " ++ date) :: lines)
  | _ => Raise TypeError
  end.

Definition newline : string := String nl EmptyString.

Definition _format_memory_for_prompt (memory_results : gmap string (list hit))
  : result string :=
  (* Format user profile *)
  profile_lines <~ match memory_results !! "user_profile" with
                   | Some (first :: _) => format_profile first
                   | _ => Ok []
                   end ;;
  (* Format business knowledge *)
  business_lines <~ match memory_results !! "business_knowledge" with
                    | Some ((_ :: _) as entities) =>
                      l <~ map_result format_entity entities ;;
                      Ok ((newline ++ "BUSINESS KNOWLEDGE:") :: concat l)
                    | _ => Ok []
                    end ;;
  (* Format conversation history *)
  conversation_lines <~ match memory_results !! "conversation_history" with
                        | Some ((_ :: _) as conversations) =>
                          l <~ map_result format_conversation conversations ;;
                          Ok ((newline ++ "RELEVANT PAST CONVERSATIONS:") :: concat l)
                        | _ => Ok []
                        end ;;
  Ok (join newline (app profile_lines (app business_lines conversation_lines))).

(** [conversation_id] and [timestamp] are the identifier and the clock
    reading that [save_conversation] draws. *)
Definition _update_memory (conversation_id timestamp : string)
           (messages : list Message.t) (user_id : string) : M unit :=
  emit (EvLog "Updating memory...") ;;;
  (* Update user profile *)
  update_user_profile messages user_id ;;;
  (* Update business knowledge *)
  update_business_knowledge messages user_id ;;;
  (* Save conversation *)
  save_conversation conversation_id timestamp messages user_id.

Definition system_prompt (memory_context user_id : string) : string :=
  "You are a helpful voice assistant with access to the user's personal and business information.
        
You should use the memory context provided to personalize your responses.

When responding:
1. Be concise and conversational - you are speaking, not writing
2. Use natural language and avoid complex structures
3. Reference relevant information from the user's profile or business knowledge
4. Keep your responses short enough to be easily spoken

Memory context:
" ++ memory_context ++ "

User ID: " ++ user_id.

Definition generate_response (conversation_id timestamp : string)
           (state : AssistantState) : M AssistantState :=
  emit (EvLog "Generating response...") ;;;
  let user_id := user_id state in
  let messages := messages state in
  let memory_results := match memory_search_results state with
                        | Some r => r
                        | None => ∅
                        end in
  match messages with
  | [] => ret state
  | _ =>
    memory_context <- lift (_format_memory_for_prompt memory_results) ;;
    let system_message := {| Message.role := "system";
                             Message.content := system_prompt memory_context user_id |} in
    let prompt := system_message :: last_n Config.MAX_CONVERSATION_HISTORY messages in
    emit (EvComplete prompt) ;;;
    response_content <- lift (llm_invoke prompt) ;;
    let messages := (messages ++ [ {| Message.role := "assistant";
                                      Message.content := response_content |} ])%list in
    let spoken_response := optimize_for_speech response_content in
    emit (EvLog ("Generated response: " ++ take 100 response_content ++ "...")) ;;;
    _update_memory conversation_id timestamp messages user_id ;;;
    ret {| messages := messages; user_id := user_id;
           memory_search_results := memory_search_results state;
           spoken_response := Some spoken_response |}
  end.

Definition voice_output (state : AssistantState) : M AssistantState :=
  emit (EvLog "Converting response to speech...") ;;;
  (if truthy_opt (spoken_response state)
   then speak (default "" (spoken_response state))
   else ret tt) ;;;
  ret state.

End Nodes.
End Agent_nodes.

(** ** src/main.py *)

Module Main.
Import Schemas Effects Memory_store Agent_nodes.
Local Open Scope py_scope.

(** What one turn takes from outside: the transcription of the
    recording, and the identifier and clock reading used when the
    conversation is saved. *)
Record turn_input : Type := {
  transcription : string;
  conversation_id : string;
  timestamp : string
}.

Definition START := "__start__".
Definition END_ := "__end__".

Section Graph.
Context {pydantic : Pydantic} {index : Store.Index} {faults : Store.Faults}
        {policy : ExtractionPolicy} {services : Services}.

(** [builder.add_node] *)
Definition nodes (i : turn_input) : list (string * (AssistantState -> M AssistantState)) :=
  [("voice_input", voice_input (transcription i));
   ("search_memory", search_memory);
   ("generate_response", generate_response (conversation_id i) (timestamp i));
   ("voice_output", voice_output)].

(** [builder.add_edge] *)
Definition edges : list (string * string) :=
  [(START, "voice_input");
   ("voice_input", "search_memory");
   ("search_memory", "generate_response");
   ("generate_response", "voice_output");
   ("voice_output", END_)].

(** Running the compiled graph from a node: follow the edge, run the
    node it leads to on the state, go on from there until the end node.
    [fuel] bounds the number of steps. *)
Fixpoint run_from (i : turn_input) (fuel : nat) (at_ : string)
         (state : AssistantState) : M AssistantState :=
  match fuel with
  | O => raise (ServiceError "recursion limit")
  | S fuel' =>
    match dict_get at_ edges with
    | None => raise (ServiceError "dead end")
    | Some next =>
      if String.eqb next END_ then ret state
      else match dict_get next (nodes i) with
           | None => raise (ServiceError "unknown node")
           | Some node => state' <- node state ;; run_from i fuel' next state'
           end
    end
  end.

Definition recursion_limit := 25.

(** [assistant.invoke(state)] *)
Definition invoke (i : turn_input) (state : AssistantState) : M AssistantState :=
  run_from i recursion_limit START state.

(** The loop of [run_assistant]: one turn after the other, each on the
    state the turn before returned.  The source starts the loop from
    [initial_state], on the store [create_assistant] has just built;
    here the state and the store it starts from are arguments.  What
    the session prints and logs around the loop is not part of it. *)
Fixpoint run_assistant (turns : list turn_input) (state : AssistantState)
  : M AssistantState :=
  match turns with
  | [] => ret state
  | i :: rest => result <- invoke i state ;; run_assistant rest result
  end.

Definition initial_state (user_id : string) : AssistantState :=
  {| messages := []; user_id := user_id;
     memory_search_results := None; spoken_response := None |}.

End Graph.
End Main.

(** ** Concrete collaborators and inputs

    Used to run the definitions: a store index that keeps insertion
    order, extraction policies that write nothing, one whose profile
    update fails, a chat model with a fixed answer.  The texts of the
    runs are ASCII. *)

Module Scenario.
Import PyStr Schemas Store Effects Memory_store Agent_nodes Main.

Definition quiet_policy : ExtractionPolicy := {|
  profile_manager_invoke := fun _ _ s => (Ok tt, s);
  business_manager_invoke := fun _ _ s => (Ok tt, s)
|}.

Definition failing_profile_policy : ExtractionPolicy := {|
  profile_manager_invoke := fun _ _ s => (Raise (ServiceError "extraction failed"), s);
  business_manager_invoke := fun _ _ s => (Ok tt, s)
|}.

Definition fixed_answer : Services := {|
  llm_invoke := fun _ => Ok "Hello **there**";
  py_str := fun v => match v with PyStr s => s | _ => "" end;
  results_str := fun r => "{...}";
  format_timestamp := fun s => Ok (take 10 s ++ " " ++ take 5 (String.substring 11 5 s));
  str_capitalize := ascii_capitalize;
  str_capitalize_ascii := fun _ _ => eq_refl
|}.

Definition empty_world : world := {| w_store := []; w_trace := [] |}.

Definition hi : Message.t := {| Message.role := "user"; Message.content := "hi" |}.

(** A state left by an earlier turn in which the user said "hi". *)
Definition one_message : AssistantState :=
  {| messages := [hi]; user_id := "default-user";
     memory_search_results := None; spoken_response := None |}.

Definition silent_turn : turn_input :=
  {| transcription := ""; conversation_id := "0b0e6d6e-8c7a-4c55-9d0c-3f1f4b5a6c7d";
     timestamp := "2025-01-01T10:00:00" |}.

(** A profile record with a key that is not a field of [UserProfile]. *)
Definition profile_with_nickname : list (string * pyval) :=
  [("name", PyStr "Aaron"); ("nickname", PyStr "Az")].

Definition store_with_nickname : world :=
  {| w_store := [ {| item_namespace := ("user_profile", "default-user");
                     key := "profile"; value := PyDict profile_with_nickname |} ];
     w_trace := [] |}.

(** A business record without the required name. *)
Definition store_with_nameless_entity : world :=
  {| w_store := [ {| item_namespace := ("business_knowledge", "default-user");
                     key := "e1"; value := PyDict [("entity_type", PyStr "project")] |} ];
     w_trace := [] |}.




(** A store that already holds the context record of the user. *)
Definition store_with_context : world :=
  {| w_store := [ {| item_namespace := ("conversation_history", "default-user");
                     key := "context";
                     value := ConversationContext.model_dump ConversationContext.default |} ];
     w_trace := [] |}.

End Scenario.

(** * Properties *)

(** ** Speech clean-up *)

Module VoiceFacts.
Import PyStr Voice_io.
Local Arguments Ascii.eqb : simpl never.

(** [s[k:]] *)
Fixpoint drop (k : nat) (s : string) : string :=
  match k, s with
  | S k', String _ t => drop k' t
  | _, _ => s
  end.

(** Does the first character of [s] satisfy [P]? *)
Definition head_is (P : ascii -> bool) (s : string) : bool :=
  match s with
  | String c _ => P c
  | EmptyString => false
  end.

(** The pattern matches at no position of [s]. *)
Fixpoint clean (m : matcher) (s : string) : Prop :=
  match s with
  | EmptyString => True
  | String _ t => m s = None /\ clean m t
  end.

Lemma append_cons c (p s : string) : String c p ++ s = String c (p ++ s).
Proof. reflexivity. Qed.

Lemma append_nil (s : string) : "" ++ s = s.
Proof. reflexivity. Qed.

Lemma drop_length k s : String.length (drop k s) <= String.length s.
Proof.
  revert s. induction k as [|k IH]; intros [|c t]; simpl; try lia.
  specialize (IH t). lia.
Qed.

Lemma drop_nil k : drop k "" = "".
Proof. destruct k; reflexivity. Qed.

Lemma clean_drop m k s : clean m s -> clean m (drop k s).
Proof.
  revert s. induction k as [|k IH]; intros [|c t]; simpl; auto.
  intros [_ Ht]. apply IH. exact Ht.
Qed.

Section Sub.
Variable m : matcher.
Variable repl : string.
Hypothesis m_nonempty : forall s, m s <> Some 0.

(** Dropping the rest of a match, then going on. *)
Lemma sub_from_drop k s : sub_from m repl k s = re_sub m repl (drop k s).
Proof.
  revert s. induction k as [|k IH]; intros s; [destruct s; reflexivity|].
  destruct s as [|c t]; [reflexivity|]. simpl. apply IH.
Qed.

Lemma re_sub_nil : re_sub m repl "" = "".
Proof. reflexivity. Qed.

Lemma re_sub_copy c t :
  m (String c t) = None -> re_sub m repl (String c t) = String c (re_sub m repl t).
Proof. intros E. unfold re_sub. simpl. rewrite E. reflexivity. Qed.

Lemma re_sub_match c t k :
  m (String c t) = Some (S k) ->
  re_sub m repl (String c t) = repl ++ re_sub m repl (drop k t).
Proof.
  intros E. unfold re_sub at 1. simpl. rewrite E, sub_from_drop. reflexivity.
Qed.

(** Induction along the scan: a property of the text and its image
    holds when it holds at the end, is kept by a copied character, and
    is kept by a replaced match. *)
Lemma re_sub_ind (Q : string -> string -> Prop) :
  Q "" "" ->
  (forall c t, m (String c t) = None ->
               Q t (re_sub m repl t) ->
               Q (String c t) (String c (re_sub m repl t))) ->
  (forall c t k, m (String c t) = Some (S k) ->
                 Q (drop k t) (re_sub m repl (drop k t)) ->
                 Q (String c t) (repl ++ re_sub m repl (drop k t))) ->
  forall s, Q s (re_sub m repl s).
Proof.
  intros Hnil Hcopy Hmatch s.
  remember (String.length s) as n eqn:En.
  assert (Hn : String.length s <= n) by lia. clear En.
  revert s Hn. induction n as [|n IH]; intros [|c t] Hn; simpl in Hn;
    try exact Hnil; try lia.
  destruct (m (String c t)) as [[|k]|] eqn:E.
  - exfalso. exact (m_nonempty _ E).
  - rewrite (re_sub_match _ _ _ E). apply Hmatch; [exact E|].
    apply IH. pose proof (drop_length k t). lia.
  - rewrite (re_sub_copy _ _ E). apply Hcopy; [exact E|].
    apply IH. lia.
Qed.

(** A text in which the pattern matches nowhere is left as it is. *)
Lemma re_sub_clean s : clean m s -> re_sub m repl s = s.
Proof.
  induction s as [|c t IH]; [reflexivity|].
  intros [E Ht]. rewrite (re_sub_copy _ _ E), (IH Ht). reflexivity.
Qed.

End Sub.

(** *** The three patterns *)

Definition star2 : matcher := literal "**".
Definition is_star : ascii -> bool := Ascii.eqb star.
Definition is_nl : ascii -> bool := Ascii.eqb nl.

Lemma star2_cons c t :
  star2 (String c t) = if is_star c && head_is is_star t then Some 2 else None.
Proof.
  unfold star2, literal, is_star, star. simpl.
  destruct (Ascii.eqb "*" c); [|reflexivity].
  destruct t as [|d t]; [reflexivity|]. simpl.
  destruct (Ascii.eqb "*" d); reflexivity.
Qed.

Lemma star2_nonempty s : star2 s <> Some 0.
Proof.
  destruct s as [|c t]; [discriminate|]. rewrite star2_cons.
  destruct (is_star c && head_is is_star t); discriminate.
Qed.

Lemma newlines_cons c t :
  match_newlines (String c t)
  = if is_nl c && head_is is_nl t
    then Some (2 + run_length is_nl (drop 1 t))
    else None.
Proof.
  unfold match_newlines, is_nl. destruct t as [|d t]; simpl.
  - rewrite andb_false_r. reflexivity.
  - reflexivity.
Qed.

Lemma newlines_nonempty s : match_newlines s <> Some 0.
Proof.
  destruct s as [|c t]; [discriminate|]. rewrite newlines_cons.
  destruct (is_nl c && head_is is_nl t); discriminate.
Qed.

(** After the longest run of [P] comes a character that is not [P], or
    the end. *)
Lemma head_after_run P s : head_is P (drop (run_length P s) s) = false.
Proof.
  induction s as [|c t IH]; [reflexivity|]. simpl.
  destruct (P c) eqn:E; simpl; [exact IH|exact E].
Qed.

(** A pattern of two characters of one class: it fails on a text whose
    first two characters are not both of the class. *)
Section Pairs.
Variable m : matcher.
Variable P : ascii -> bool.
Hypothesis m_cons : forall c t, m (String c t) = None <-> P c && head_is P t = false.

Lemma pair_unmatched c t u :
  m (String c t) = None ->
  (head_is P u = true -> head_is P t = true) ->
  m (String c u) = None.
Proof.
  rewrite !m_cons. intros E Hhead.
  destruct (P c); [|reflexivity]. simpl in *.
  destruct (head_is P u); [|reflexivity]. rewrite Hhead in E; auto.
Qed.

End Pairs.

Lemma star2_None c t :
  star2 (String c t) = None <-> is_star c && head_is is_star t = false.
Proof.
  rewrite star2_cons. destruct (is_star c && head_is is_star t); split; congruence.
Qed.

Lemma newlines_None c t :
  match_newlines (String c t) = None <-> is_nl c && head_is is_nl t = false.
Proof.
  rewrite newlines_cons. destruct (is_nl c && head_is is_nl t); split; congruence.
Qed.

(** What is left once the [**] are removed has no [**], and starts with
    a star only if the text did. *)
Lemma replace_stars_clean s :
  clean star2 (replace "**" "" s)
  /\ (head_is is_star (replace "**" "" s) = true -> head_is is_star s = true).
Proof.
  unfold replace. fold star2.
  apply (re_sub_ind star2 "" star2_nonempty
           (fun s u => clean star2 u
                       /\ (head_is is_star u = true -> head_is is_star s = true))).
  - split; [exact I|auto].
  - intros c t E [IHc IHh]. split; [|auto].
    split; [|exact IHc]. exact (pair_unmatched _ _ star2_None c t _ E IHh).
  - intros c t k E [IHc IHh]. rewrite append_nil. split; [exact IHc|].
    intros _. rewrite star2_cons in E. cbn [head_is].
    destruct (is_star c); [reflexivity|discriminate].
Qed.

(** What is left once the runs of newlines are collapsed has no two
    newlines in a row, and starts with a newline only if the text did. *)
Lemma collapse_newlines_clean s :
  let u := re_sub match_newlines (String nl "") s in
  clean match_newlines u
  /\ (head_is is_nl u = true -> head_is is_nl s = true).
Proof.
  apply (re_sub_ind match_newlines (String nl "") newlines_nonempty
           (fun s u => clean match_newlines u
                       /\ (head_is is_nl u = true -> head_is is_nl s = true))).
  - split; [exact I|auto].
  - intros c t E [IHc IHh]. split; [|auto].
    split; [|exact IHc]. exact (pair_unmatched _ _ newlines_None c t _ E IHh).
  - intros c t k E [IHc IHh].
    rewrite newlines_cons in E.
    destruct (is_nl c) eqn:Ec; [|discriminate].
    destruct t as [|d t]; [discriminate|]. cbn [head_is andb drop] in E.
    destruct (is_nl d) eqn:Ed; [|discriminate].
    injection E as <-. cbn [drop] in *. rewrite append_cons, append_nil.
    split; [|intros _; exact Ec]. split; [|exact IHc].
    apply newlines_None. cbn [head_is].
    replace (is_nl nl) with true by reflexivity. cbn [andb].
    apply not_true_iff_false. intros Eh.
    apply IHh in Eh. rewrite head_after_run in Eh. discriminate.
Qed.

(** *** The URL pattern *)

(** A text starts as a list of character classes says. *)
Fixpoint prefix_ok (pat : list (ascii -> bool)) (s : string) : bool :=
  match pat with
  | [] => true
  | p :: pat' =>
    match s with
    | EmptyString => false
    | String c t => p c && prefix_ok pat' t
    end
  end.

(** The classes of the characters of a literal. *)
Fixpoint lit (p : string) : list (ascii -> bool) :=
  match p with
  | EmptyString => []
  | String a p' => Ascii.eqb a :: lit p'
  end.

Fixpoint chars_all (P : ascii -> bool) (p : string) : bool :=
  match p with
  | EmptyString => true
  | String a p' => P a && chars_all P p'
  end.

Definition http_pat : list (ascii -> bool) := (lit "http://" ++ [non_space])%list.
Definition https_pat : list (ascii -> bool) := (lit "https://" ++ [non_space])%list.

(** A URL starts here: a scheme, [://] and one character that is not
    a space. *)
Definition url_head (s : string) : bool := prefix_ok http_pat s || prefix_ok https_pat s.

Lemma prefix_ok_lit (p : string) rest s :
  prefix_ok (lit p ++ rest)%list s
  = match strip_prefix p s with
    | Some r => prefix_ok rest r
    | None => false
    end.
Proof.
  revert s. induction p as [|a p IH]; intros s; [reflexivity|].
  destruct s as [|b s]; [reflexivity|]. cbn [lit app prefix_ok strip_prefix].
  destruct (Ascii.eqb a b); [apply IH|reflexivity].
Qed.

Lemma strip_prefix_app (p q s : string) :
  strip_prefix (p ++ q) s
  = match strip_prefix p s with
    | Some r => strip_prefix q r
    | None => None
    end.
Proof.
  revert s. induction p as [|a p IH]; intros s; [reflexivity|].
  rewrite append_cons. destruct s as [|b s]; [reflexivity|]. cbn [strip_prefix].
  destruct (Ascii.eqb a b); [apply IH|reflexivity].
Qed.

Lemma run_length_strip P (p s r : string) :
  strip_prefix p s = Some r -> chars_all P p = true ->
  run_length P s = String.length p + run_length P r.
Proof.
  revert s. induction p as [|a p IH]; intros s.
  - intros [= ->] _. reflexivity.
  - destruct s as [|b s]; [discriminate|]. cbn [strip_prefix chars_all].
    destruct (Ascii.eqb a b) eqn:E; [|discriminate].
    apply Ascii.eqb_eq in E as <-.
    intros Hr Hall. apply andb_true_iff in Hall as [Ha Hall].
    cbn [run_length String.length]. rewrite Ha, (IH _ Hr Hall). reflexivity.
Qed.

Lemma run_length_head P s : run_length P s = 0 <-> head_is P s = false.
Proof.
  destruct s as [|c t]; simpl; [tauto|]. destruct (P c); split; congruence.
Qed.

(** The tail of the pattern, after the scheme. *)
Definition url_rest (r : string) (len : nat) : option nat :=
  match strip_prefix "://" r with
  | None => None
  | Some r'' =>
    match run_length non_space r'' with
    | O => None
    | S n => Some (len + 3 + S n)
    end
  end.

Lemma match_url_eq s :
  match_url s
  = match strip_prefix "http" s with
    | None => None
    | Some r =>
      match (match strip_prefix "s" r with
             | Some r' => url_rest r' 5
             | None => None
             end) with
      | Some n => Some n
      | None => url_rest r 4
      end
    end.
Proof. reflexivity. Qed.

Lemma url_rest_length r len s p :
  strip_prefix p s = Some r -> chars_all non_space p = true ->
  String.length p = len ->
  forall n, url_rest r len = Some n -> n = run_length non_space s.
Proof.
  intros Hp Hall Hlen n. unfold url_rest.
  destruct (strip_prefix "://" r) as [r''|] eqn:E; [|discriminate].
  destruct (run_length non_space r'') as [|k] eqn:Ek; [discriminate|].
  intros [= <-].
  rewrite (run_length_strip _ _ _ _ Hp Hall).
  rewrite (run_length_strip non_space _ _ _ E eq_refl), Ek, Hlen. simpl. lia.
Qed.

(** A match of the URL pattern takes the whole run of characters that
    are not spaces. *)
Lemma match_url_length s n : match_url s = Some n -> n = run_length non_space s.
Proof.
  rewrite match_url_eq.
  destruct (strip_prefix "http" s) as [r|] eqn:E; [|discriminate].
  destruct (strip_prefix "s" r) as [r'|] eqn:E'.
  - destruct (url_rest r' 5) as [n'|] eqn:E5.
    + intros [= <-].
      assert (Hp : strip_prefix ("http" ++ "s") s = Some r')
        by (rewrite strip_prefix_app, E; exact E').
      exact (url_rest_length _ _ _ _ Hp eq_refl eq_refl _ E5).
    + exact (url_rest_length _ _ _ _ E eq_refl eq_refl n).
  - exact (url_rest_length _ _ _ _ E eq_refl eq_refl n).
Qed.

Lemma url_rest_nonempty r len : url_rest r len <> Some 0.
Proof.
  unfold url_rest. destruct (strip_prefix "://" r); [|discriminate].
  destruct (run_length non_space s); [discriminate|].
  intros [= E]. lia.
Qed.

Lemma match_url_nonempty s : match_url s <> Some 0.
Proof.
  rewrite match_url_eq.
  destruct (strip_prefix "http" s) as [r|]; [|discriminate].
  destruct (strip_prefix "s" r) as [r'|].
  - destruct (url_rest r' 5) as [n|] eqn:E; [|apply url_rest_nonempty].
    rewrite <- E. apply url_rest_nonempty.
  - apply url_rest_nonempty.
Qed.

Lemma prefix_ok_one P s : prefix_ok [P] s = head_is P s.
Proof. destruct s as [|c t]; [reflexivity|]. simpl. apply andb_true_r. Qed.

Lemma url_rest_None r len :
  url_rest r len = None
  <-> match strip_prefix "://" r with
      | Some r'' => prefix_ok [non_space] r''
      | None => false
      end = false.
Proof.
  unfold url_rest. destruct (strip_prefix "://" r) as [r''|]; [|tauto].
  rewrite prefix_ok_one, <- run_length_head.
  destruct (run_length non_space r''); split; congruence.
Qed.

(** The pattern matches exactly where a URL starts. *)
Lemma match_url_None s : match_url s = None <-> url_head s = false.
Proof.
  rewrite match_url_eq. unfold url_head, http_pat, https_pat.
  change "http://" with ("http" ++ "://").
  change "https://" with ("http" ++ "s" ++ "://").
  rewrite !prefix_ok_lit. rewrite !strip_prefix_app.
  destruct (strip_prefix "http" s) as [r|]; [|tauto].
  rewrite !strip_prefix_app.
  destruct (strip_prefix "s" r) as [r'|] eqn:E'.
  - rewrite orb_false_iff, <- (url_rest_None r 4), <- (url_rest_None r' 5).
    destruct (url_rest r' 5); [split; [discriminate|intros [_ ?]; discriminate]|].
    tauto.
  - rewrite orb_false_r. apply url_rest_None.
Qed.

(** All the classes of a pattern reject spaces. *)
Definition rejects_spaces (pat : list (ascii -> bool)) : Prop :=
  Forall (fun q => forall c, q c = true -> is_space c = false) pat.

Lemma lit_rejects_spaces (p : string) :
  chars_all non_space p = true -> rejects_spaces (lit p).
Proof.
  induction p as [|a p IH]; cbn [chars_all lit]; intros Hall; [constructor|].
  apply andb_true_iff in Hall as [Ha Hall]. constructor; [|exact (IH Hall)].
  intros c E. apply Ascii.eqb_eq in E as <-.
  unfold non_space in Ha. apply negb_true_iff in Ha. exact Ha.
Qed.

Lemma non_space_rejects_spaces : rejects_spaces [non_space].
Proof.
  constructor; [|constructor]. intros c E. unfold non_space in E.
  apply negb_true_iff in E. exact E.
Qed.

Lemma http_pat_rejects_spaces : rejects_spaces http_pat.
Proof.
  apply Forall_app. split; [apply lit_rejects_spaces; reflexivity|].
  apply non_space_rejects_spaces.
Qed.

Lemma https_pat_rejects_spaces : rejects_spaces https_pat.
Proof.
  apply Forall_app. split; [apply lit_rejects_spaces; reflexivity|].
  apply non_space_rejects_spaces.
Qed.

(** A pattern without spaces that matches across a space matches
    before it, whatever comes after. *)
Lemma prefix_ok_before_space pat (x : string) a y w :
  rejects_spaces pat -> is_space a = true ->
  prefix_ok pat (x ++ String a y) = true -> prefix_ok pat (x ++ w) = true.
Proof.
  intros Hpat Ha. revert x. induction Hpat as [|q pat Hq Hpat IH]; intros x; [reflexivity|].
  destruct x as [|c x].
  - rewrite append_nil. cbn [prefix_ok]. intros E.
    apply andb_true_iff in E as [E _]. apply Hq in E. congruence.
  - rewrite !append_cons. cbn [prefix_ok]. intros E.
    apply andb_true_iff in E as [E1 E2]. rewrite E1. exact (IH _ E2).
Qed.

Lemma url_head_before_space (x : string) a y w :
  is_space a = true ->
  url_head (x ++ String a y) = true -> url_head (x ++ w) = true.
Proof.
  intros Ha. unfold url_head. rewrite !orb_true_iff. intros [E|E]; [left|right].
  - exact (prefix_ok_before_space _ _ _ _ _ http_pat_rejects_spaces Ha E).
  - exact (prefix_ok_before_space _ _ _ _ _ https_pat_rejects_spaces Ha E).
Qed.

(** A pattern matches across the word put for a URL only if it matches
    across the first character of any URL. *)
Definition link_to_h (pat : list (ascii -> bool)) : Prop :=
  forall z y, prefix_ok pat ("link" ++ z) = true -> prefix_ok pat (String "h" y) = true.

Lemma prefix_ok_link pat (x z y : string) :
  (forall k, link_to_h (skipn k pat)) ->
  prefix_ok pat (x ++ "link" ++ z) = true -> prefix_ok pat (x ++ String "h" y) = true.
Proof.
  revert pat. induction x as [|c x IH]; intros pat Hpat.
  - rewrite !append_nil. apply (Hpat 0).
  - rewrite !append_cons. destruct pat as [|q pat]; [reflexivity|].
    cbn [prefix_ok]. intros E. apply andb_true_iff in E as [E1 E2]. rewrite E1.
    apply IH; [|exact E2]. intros k. exact (Hpat (S k)).
Qed.

Ltac link_suffixes :=
  intros k; unfold link_to_h;
  do 10 (destruct k as [|k]; [intros z y E; vm_compute in E; vm_compute; congruence|]);
  intros z y _; reflexivity.

Lemma http_pat_link k : link_to_h (skipn k http_pat).
Proof. revert k. link_suffixes. Qed.

Lemma https_pat_link k : link_to_h (skipn k https_pat).
Proof. revert k. link_suffixes. Qed.

Lemma url_head_link (x z y : string) :
  url_head (x ++ "link" ++ z) = true -> url_head (x ++ String "h" y) = true.
Proof.
  unfold url_head. rewrite !orb_true_iff. intros [E|E]; [left|right].
  - exact (prefix_ok_link _ _ _ _ http_pat_link E).
  - exact (prefix_ok_link _ _ _ _ https_pat_link E).
Qed.

(** Wherever a URL starts in front of [u], one starts in front of [s]. *)
Definition url_dominates (s u : string) : Prop :=
  forall x : string, url_head (x ++ u) = true -> url_head (x ++ s) = true.

Lemma append_assoc (x y z : string) : (x ++ y) ++ z = x ++ (y ++ z).
Proof.
  induction x as [|c x IH]; [reflexivity|]. rewrite !append_cons, IH. reflexivity.
Qed.

Lemma url_dominates_cons c s u : url_dominates s u -> url_dominates (String c s) (String c u).
Proof.
  intros Hd x E.
  change (String c s) with (String c "" ++ s). rewrite <- append_assoc. apply Hd.
  rewrite append_assoc. exact E.
Qed.

Lemma url_unmatched_cons c t u :
  match_url (String c t) = None -> url_dominates t u -> match_url (String c u) = None.
Proof.
  intros E Hd. apply match_url_None. apply not_true_iff_false. intros Eu.
  apply match_url_None in E.
  specialize (Hd (String c "") Eu). rewrite append_cons, append_nil in Hd. congruence.
Qed.

Lemma match_url_h c t n : match_url (String c t) = Some n -> c = "h"%char.
Proof.
  rewrite match_url_eq. cbn [strip_prefix].
  destruct (Ascii.eqb "h" c) eqn:E; [|discriminate].
  apply Ascii.eqb_eq in E. auto.
Qed.

(** *** The three steps, one after the other *)

Definition link_urls (s : string) : string := re_sub match_url "link" s.
Definition collapse_newlines (s : string) : string :=
  re_sub match_newlines (String nl "") s.
Definition remove_stars (s : string) : string := replace "**" "" s.

Lemma optimize_for_speech_steps s :
  optimize_for_speech s = remove_stars (collapse_newlines (link_urls s)).
Proof. reflexivity. Qed.

(** A substitution whose replacement carries no star keeps a text free
    of [**]. *)
Lemma re_sub_keeps_stars (m : matcher) (repl : string) :
  (forall s, m s <> Some 0) ->
  (forall z, clean star2 z -> clean star2 (repl ++ z)) ->
  (forall z, head_is is_star (repl ++ z) = false) ->
  forall s,
    (head_is is_star (re_sub m repl s) = true -> head_is is_star s = true)
    /\ (clean star2 s -> clean star2 (re_sub m repl s)).
Proof.
  intros Hm Hclean Hhead.
  apply (re_sub_ind m repl Hm
           (fun s u => (head_is is_star u = true -> head_is is_star s = true)
                       /\ (clean star2 s -> clean star2 u))).
  - split; auto.
  - intros c t E [IHh IHc]. split; [auto|].
    intros [Ec Ht]. split; [|exact (IHc Ht)].
    exact (pair_unmatched _ _ star2_None c t _ Ec IHh).
  - intros c t k E [IHh IHc]. split.
    + rewrite Hhead. discriminate.
    + intros [_ Ht]. apply Hclean. apply IHc. apply clean_drop. exact Ht.
Qed.

Lemma link_urls_keeps_stars s : clean star2 s -> clean star2 (link_urls s).
Proof.
  apply (re_sub_keeps_stars match_url "link" match_url_nonempty).
  - intros z Hz. repeat split; exact Hz.
  - reflexivity.
Qed.

Lemma collapse_newlines_keeps_stars s : clean star2 s -> clean star2 (collapse_newlines s).
Proof.
  apply (re_sub_keeps_stars match_newlines (String nl "") newlines_nonempty).
  - intros z Hz. repeat split; exact Hz.
  - reflexivity.
Qed.

(** No URL starts anywhere in a text whose URLs were replaced. *)
Lemma link_urls_clean s :
  clean match_url (link_urls s) /\ url_dominates s (link_urls s).
Proof.
  apply (re_sub_ind match_url "link" match_url_nonempty
           (fun s u => clean match_url u /\ url_dominates s u)).
  - split; [exact I|]. intros x E. exact E.
  - intros c t E [IHc IHd]. split.
    + split; [|exact IHc]. exact (url_unmatched_cons _ _ _ E IHd).
    + apply url_dominates_cons. exact IHd.
  - intros c t k E [IHc IHd]. split.
    + repeat split; exact IHc.
    + apply match_url_h in E as ->. intros x. apply url_head_link.
Qed.

(** Collapsing newlines lets no URL appear. *)
Lemma collapse_newlines_keeps_urls s :
  url_dominates s (collapse_newlines s)
  /\ (clean match_url s -> clean match_url (collapse_newlines s)).
Proof.
  apply (re_sub_ind match_newlines (String nl "") newlines_nonempty
           (fun s u => url_dominates s u /\ (clean match_url s -> clean match_url u))).
  - split; [|auto]. intros x E. exact E.
  - intros c t E [IHd IHc]. split.
    + apply url_dominates_cons. exact IHd.
    + intros [Ec Ht]. split; [|exact (IHc Ht)].
      exact (url_unmatched_cons _ _ _ Ec IHd).
  - intros c t k E [IHd IHc].
    rewrite append_cons, append_nil. split.
    + intros x Ex.
      assert (Hnl : is_space nl = true) by reflexivity.
      exact (url_head_before_space x nl _ _ Hnl Ex).
    + intros [_ Ht]. split; [reflexivity|].
      apply IHc. apply clean_drop. exact Ht.
Qed.

(** The conditions in the words of Python: ["**" in s] and the like. *)
Lemma contains_clean (sub s : string) :
  sub <> "" -> contains sub s = false <-> clean (literal sub) s.
Proof.
  intros Hsub. induction s as [|c t IH].
  - cbn [contains clean]. destruct sub; [congruence|]. cbn [strip_prefix]. tauto.
  - cbn [contains clean]. unfold literal at 1.
    destruct (strip_prefix sub (String c t)).
    + split; [discriminate|]. intros [? _]. discriminate.
    + rewrite IH. tauto.
Qed.

Definition two_newlines : string := String nl (String nl "").

Lemma newlines_literal s : match_newlines s = None <-> literal two_newlines s = None.
Proof.
  unfold literal, two_newlines. destruct s as [|a [|b t]]; cbn [match_newlines strip_prefix];
    try tauto.
  - destruct (Ascii.eqb nl a); tauto.
  - destruct (Ascii.eqb nl a); cbn [andb]; [|tauto].
    destruct (Ascii.eqb nl b); split; congruence.
Qed.

Lemma clean_iff (m1 m2 : matcher) s :
  (forall t, m1 t = None <-> m2 t = None) -> clean m1 s <-> clean m2 s.
Proof.
  intros Hm. induction s as [|c t IH]; [tauto|]. cbn [clean]. rewrite Hm, IH. tauto.
Qed.

Lemma clean_positions (m : matcher) s :
  m "" = None -> clean m s -> forall k, m (drop k s) = None.
Proof.
  intros Hnil. induction s as [|c t IH]; intros Hs k.
  - rewrite drop_nil. exact Hnil.
  - destruct Hs as [Ec Ht]. destruct k as [|k]; [exact Ec|]. apply IH. exact Ht.
Qed.

(** C10, as the code has it: the result of [optimize_for_speech] never
    contains [**].  On a text that itself contains no [**], the result
    has no URL (the pattern matches at no position), no two newlines in
    a row and no [**], and applying the function again leaves it
    unchanged. *)
Theorem optimize_for_speech_stable (s : string) :
  contains "**" (optimize_for_speech s) = false
  /\ (contains "**" s = false ->
      let out := optimize_for_speech s in
      optimize_for_speech out = out
      /\ (forall k, match_url (drop k out) = None)
      /\ contains two_newlines out = false
      /\ contains "**" out = false).
Proof.
  split.
  - apply contains_clean; [discriminate|]. rewrite optimize_for_speech_steps.
    apply replace_stars_clean.
  - intros Hs out.
    apply contains_clean in Hs; [|discriminate]. fold star2 in Hs.
    pose proof (link_urls_keeps_stars _ Hs) as Hs1.
    pose proof (collapse_newlines_keeps_stars _ Hs1) as Hs2.
    destruct (link_urls_clean s) as [Hu1 _].
    destruct (collapse_newlines_keeps_urls (link_urls s)) as [_ Hu2].
    specialize (Hu2 Hu1).
    destruct (collapse_newlines_clean (link_urls s)) as [Hn _]. cbv zeta in Hn.
    fold (collapse_newlines (link_urls s)) in Hn.
    assert (Eout : out = collapse_newlines (link_urls s)).
    { subst out. rewrite optimize_for_speech_steps. unfold remove_stars, replace.
      fold star2. apply re_sub_clean. exact Hs2. }
    rewrite Eout. split; [|split; [|split]].
    + rewrite optimize_for_speech_steps.
      unfold link_urls at 1. rewrite (re_sub_clean _ _ _ Hu2).
      unfold collapse_newlines at 1. rewrite (re_sub_clean _ _ _ Hn).
      unfold remove_stars, replace. fold star2. apply re_sub_clean. exact Hs2.
    + apply clean_positions; [reflexivity|exact Hu2].
    + apply contains_clean; [discriminate|].
      apply (clean_iff match_newlines); [|exact Hn].
      apply newlines_literal.
    + apply contains_clean; [discriminate|]. exact Hs2.
Qed.

End VoiceFacts.

(** ** The store *)

Module StoreFacts.
Import Store.

Lemma same_namespace_spec (a b : namespace) :
  same_namespace a b = true <-> a = b.
Proof.
  destruct a as [a1 a2], b as [b1 b2]. unfold same_namespace. simpl.
  rewrite andb_true_iff, !String.eqb_eq. split.
  - intros [-> ->]. reflexivity.
  - intros [= -> ->]. split; reflexivity.
Qed.


Lemma at_key_spec ns k it :
  at_key ns k it = true <-> item_namespace it = ns /\ key it = k.
Proof.
  unfold at_key. rewrite andb_true_iff, same_namespace_spec, String.eqb_eq.
  split; intros [? ?]; split; congruence.
Qed.

Lemma at_key_new ns k v :
  at_key ns k {| item_namespace := ns; key := k; value := v |} = true.
Proof. apply at_key_spec. split; reflexivity. Qed.

(** Searching a namespace for a key selects the records at that key. *)
Lemma filter_key_in_namespace ns k (s : t) :
  List.filter (fun it => String.eqb k (key it)) (in_namespace ns s) = List.filter (at_key ns k) s.
Proof.
  unfold in_namespace, at_key.
  induction s as [|it s IH]; simpl; [reflexivity|].
  destruct (same_namespace ns (item_namespace it)); simpl.
  - destruct (String.eqb k (key it)); rewrite IH; reflexivity.
  - exact IH.
Qed.

Lemma search_key `{Index} ns k (s : t) :
  search ns None None (Some k) s = List.filter (at_key ns k) s.
Proof. unfold search. apply filter_key_in_namespace. Qed.

Lemma search_all `{Index} ns (s : t) :
  search ns None None None s = in_namespace ns s.
Proof. reflexivity. Qed.

(** After a [put] the record at the key is the one just written. *)
Lemma filter_put_same ns k v (s : t) :
  exists rest,
    List.filter (at_key ns k) (put ns k v s)
    = {| item_namespace := ns; key := k; value := v |} :: rest.
Proof.
  induction s as [|it s [rest IH]]; simpl.
  - rewrite at_key_new. eexists. reflexivity.
  - destruct (at_key ns k it) eqn:E; simpl.
    + rewrite at_key_new. eexists. reflexivity.
    + rewrite E. exists rest. exact IH.
Qed.

Lemma get_put_same ns k v (s : t) : get ns k (put ns k v s) = Some v.
Proof.
  unfold get. destruct (filter_put_same ns k v s) as [rest ->]. reflexivity.
Qed.



Lemma get_None_filter ns k (s : t) :
  get ns k s = None -> List.filter (at_key ns k) s = [].
Proof. unfold get. destruct (List.filter (at_key ns k) s); [reflexivity|discriminate]. Qed.


Lemma in_namespace_put_other ns k v ns' (s : t) :
  ns' <> ns -> in_namespace ns' (put ns k v s) = in_namespace ns' s.
Proof.
  intros Hne. unfold in_namespace.
  assert (Hnew : same_namespace ns' ns = false).
  { apply not_true_iff_false. rewrite same_namespace_spec. assumption. }
  induction s as [|it s IH]; simpl.
  - rewrite Hnew. reflexivity.
  - destruct (at_key ns k it) eqn:E; simpl.
    + rewrite Hnew. apply at_key_spec in E as [E1 _]. rewrite E1, Hnew. reflexivity.
    + rewrite IH. reflexivity.
Qed.

End StoreFacts.

(** ** Validation and dumping of the conversation context *)

Module SchemaFacts.
Import Schemas.

Lemma v_all_map_PyStr (l : list string) : v_all v_str (map PyStr l) = Some l.
Proof. induction l as [|x l IH]; simpl; [reflexivity|]. rewrite IH. reflexivity. Qed.

Lemma v_all_map_PyDict (l : list (list (string * pyval))) :
  v_all v_dict (map PyDict l) = Some l.
Proof. induction l as [|x l IH]; simpl; [reflexivity|]. rewrite IH. reflexivity. Qed.

(** Validating what [model_dump] produced gives the context back. *)
Lemma context_validate_dump `{Pydantic} (c : ConversationContext.t) :
  ConversationContext.model_validate (ConversationContext.model_dump c) = Ok c.
Proof.
  destruct c as [topics questions flows last].
  unfold ConversationContext.model_validate, ConversationContext.model_dump, field.
  simpl. unfold v_list. rewrite !v_all_map_PyStr, v_all_map_PyDict.
  destruct last as [t|]; simpl.
  - rewrite datetime_validate_datetime. reflexivity.
  - reflexivity.
Qed.

(** [dict_get] only sees the first binding of a key, and none of the
    bindings of other keys. *)
Lemma dict_get_filter {V} (P : string -> bool) (k : string) (d : list (string * V)) :
  P k = true -> dict_get k (List.filter (fun kv => P (fst kv)) d) = dict_get k d.
Proof.
  intros HP. induction d as [|[k' v] d IH]; simpl; [reflexivity|].
  destruct (P k') eqn:E; simpl.
  - destruct (String.eqb k k'); [reflexivity|exact IH].
  - destruct (String.eqb k k') eqn:E'; [|exact IH].
    apply String.eqb_eq in E'. congruence.
Qed.

End SchemaFacts.

(** ** The memory manager *)

Module MemoryFacts.
Import Schemas Store Effects Memory_store StoreFacts SchemaFacts.

Definition conversation_namespace (user_id : string) : namespace :=
  (Config.MEMORY_NAMESPACE_CONVERSATION, user_id).

Definition profile_namespace (user_id : string) : namespace :=
  (Config.MEMORY_NAMESPACE_USER_PROFILE, user_id).

Definition business_namespace (user_id : string) : namespace :=
  (Config.MEMORY_NAMESPACE_BUSINESS, user_id).

(** The world after one more [store.put]. *)
Definition after_put (ns : namespace) (k : string) (v : pyval) (w : world) : world :=
  {| w_store := put ns k v (w_store w); w_trace := (w_trace w ++ [EvPut ns k v])%list |}.

Section Context_record.
Context {pydantic : Pydantic} {index : Index} {policy : ExtractionPolicy}.
(** The store of this section is one that does not fail. *)
Existing Instance reliable.

(** What [get_conversation_context] does when the record is missing. *)
Lemma get_context_absent user_id (w : world) :
  get (conversation_namespace user_id) "context" (w_store w) = None ->
  get_conversation_context user_id w
  = (Ok ConversationContext.default,
     after_put (conversation_namespace user_id) "context"
               (ConversationContext.model_dump ConversationContext.default) w).
Proof.
  intros Habs. unfold get_conversation_context, Effects.bind, store_search.
  rewrite search_key. fold (conversation_namespace user_id).
  rewrite (get_None_filter _ _ _ Habs). reflexivity.
Qed.

(** What it does when the record is there: validate it, write nothing. *)
Lemma get_context_present user_id (w : world) (v : pyval) :
  get (conversation_namespace user_id) "context" (w_store w) = Some v ->
  get_conversation_context user_id w = (ConversationContext.model_validate v, w).
Proof.
  intros Hpre. unfold get_conversation_context, Effects.bind, store_search.
  rewrite search_key. fold (conversation_namespace user_id).
  unfold get in Hpre.
  destruct (List.filter (at_key (conversation_namespace user_id) "context") (w_store w))
    as [|first rest]; [discriminate|].
  injection Hpre as <-. reflexivity.
Qed.

(** C5: two calls of [get_conversation_context] in a row give the same
    outcome, and the second one leaves the store and the trace as they
    are (it writes nothing).  When there is no context record, the first
    call returns the default context and persists it with exactly one
    [put], after which the record exists; when there is one, the first
    call writes nothing either. *)
Theorem get_conversation_context_idempotent (user_id : string) (w : world) :
  let ns := conversation_namespace user_id in
  let first_call := get_conversation_context user_id w in
  let second_call := get_conversation_context user_id (snd first_call) in
  fst second_call = fst first_call
  /\ snd second_call = snd first_call
  /\ match get ns "context" (w_store w) with
     | None =>
       first_call
       = (Ok ConversationContext.default,
          after_put ns "context"
                    (ConversationContext.model_dump ConversationContext.default) w)
       /\ List.filter is_put (w_trace (snd first_call))
          = (List.filter is_put (w_trace w)
             ++ [EvPut ns "context"
                       (ConversationContext.model_dump ConversationContext.default)])%list
       /\ get ns "context" (w_store (snd first_call))
          = Some (ConversationContext.model_dump ConversationContext.default)
     | Some v =>
       first_call = (ConversationContext.model_validate v, w)
     end.
Proof.
  intros ns first_call second_call. subst ns first_call second_call.
  destruct (get (conversation_namespace user_id) "context" (w_store w)) as [v|] eqn:E.
  - rewrite (get_context_present _ _ _ E). cbn [fst snd].
    rewrite (get_context_present _ _ _ E). cbn [fst snd]. auto.
  - rewrite (get_context_absent _ _ E). cbn [fst snd].
    set (ns := conversation_namespace user_id) in *.
    assert (E' : get ns "context"
                     (w_store (after_put ns "context"
                        (ConversationContext.model_dump ConversationContext.default) w))
                 = Some (ConversationContext.model_dump ConversationContext.default)).
    { simpl. apply get_put_same. }
    rewrite (get_context_present _ _ _ E'). cbn [fst snd].
    rewrite context_validate_dump.
    repeat split; try reflexivity.
    + cbn [after_put w_trace]. rewrite List.filter_app. reflexivity.
    + exact E'.
Qed.

(** C6: the context read after [update_conversation_context] is the
    context that was written, whatever the store held before; the read
    itself writes nothing. *)
Theorem conversation_context_round_trip
        (c : ConversationContext.t) (user_id : string) (w : world) :
  let written := update_conversation_context c user_id w in
  fst written = Ok tt
  /\ get_conversation_context user_id (snd written) = (Ok c, snd written).
Proof.
  intros written. subst written. unfold update_conversation_context, store_put. simpl.
  split; [reflexivity|].
  erewrite get_context_present.
  - rewrite context_validate_dump. reflexivity.
  - simpl. apply get_put_same.
Qed.

End Context_record.

(** The record [save_conversation] stores. *)
Definition conversation_record (timestamp : string) (messages : list Message.t) : pyval :=
  PyDict [("timestamp", PyStr timestamp);
          ("messages", PyList (map Message.to_value messages))].

Definition conversation_item (user_id k timestamp : string) (messages : list Message.t)
  : Item :=
  {| item_namespace := conversation_namespace user_id; key := k;
     value := conversation_record timestamp messages |}.


Section Conversation_log.
Context {pydantic : Pydantic} {index : Index} {policy : ExtractionPolicy}.
(** The store of this section is one that does not fail. *)
Existing Instance reliable.



End Conversation_log.

Section Profile.
Context {pydantic : Pydantic} {index : Index} {policy : ExtractionPolicy}.
(** The store of this section is one that does not fail. *)
Existing Instance reliable.

Definition is_profile_field (k : string) : bool :=
  existsb (String.eqb k) UserProfile.fields.

(** Validation reads the declared fields of the stored dictionary and
    nothing else: keys that are not fields do not change its outcome. *)
Lemma profile_validate_ignores_extra (d : list (string * pyval)) :
  UserProfile.model_validate (PyDict d)
  = UserProfile.model_validate
      (PyDict (List.filter (fun kv => is_profile_field (fst kv)) d)).
Proof.
  unfold UserProfile.model_validate, field.
  rewrite !(dict_get_filter is_profile_field) by reflexivity. reflexivity.
Qed.

(** The only exception validation raises. *)
Lemma profile_validate_raises (v : pyval) (e : exn) :
  UserProfile.model_validate v = Raise e -> e = ValidationError.
Proof.
  unfold UserProfile.model_validate. destruct v; try congruence.
  repeat match goal with
         | |- context [match ?x with _ => _ end] => destruct x
         end; congruence.
Qed.

(** C9, as the code has it: [get_user_profile] writes nothing; it
    returns [None] exactly when the profile namespace of the user holds
    no record; otherwise it validates the value of the first record and
    returns the profile, or raises the validation error, which is the
    only way it fails.  Validation does not reject keys that are not
    fields of the profile: it gives the same outcome as on the stored
    dictionary without them. *)
Theorem get_user_profile_spec (user_id : string) (w : world) :
  let records := in_namespace (profile_namespace user_id) (w_store w) in
  snd (get_user_profile user_id w) = w
  /\ (fst (get_user_profile user_id w) = Ok None <-> records = [])
  /\ match records with
     | [] => True
     | first :: _ =>
       fst (get_user_profile user_id w)
       = match UserProfile.model_validate (value first) with
         | Ok p => Ok (Some p)
         | Raise _ => Raise ValidationError
         end
       /\ forall d, value first = PyDict d ->
            UserProfile.model_validate (value first)
            = UserProfile.model_validate
                (PyDict (List.filter (fun kv => is_profile_field (fst kv)) d))
     end.
Proof.
  intros records. subst records.
  unfold get_user_profile, Effects.bind, store_search, lift, ret.
  cbn [search_fault reliable].
  rewrite search_all. fold (profile_namespace user_id).
  destruct (in_namespace (profile_namespace user_id) (w_store w)) as [|first rest].
  - cbn. repeat split; auto.
  - assert (Hextra : forall d, value first = PyDict d ->
              UserProfile.model_validate (value first)
              = UserProfile.model_validate
                  (PyDict (List.filter (fun kv => is_profile_field (fst kv)) d))).
    { intros d ->. apply profile_validate_ignores_extra. }
    destruct (UserProfile.model_validate (value first)) as [p|e] eqn:E; cbn.
    + repeat split; try congruence. exact Hextra.
    + apply profile_validate_raises in E as ->.
      repeat split; try congruence. exact Hextra.
Qed.

End Profile.

Section Search_steps.
Context {pydantic : Pydantic} {index : Index} {faults : Faults}
        {policy : ExtractionPolicy}.

(** The list comprehensions of [search_memory]. *)
Definition validated_profiles (items : list Item) : result (list hit) :=
  map_result (fun item => Py.bind (UserProfile.model_validate (value item))
                                  (fun p => Ok (HProfile p))) items.

Definition validated_entities (items : list Item) : result (list hit) :=
  map_result (fun item => Py.bind (BusinessEntity.model_validate (value item))
                                  (fun e => Ok (HEntity e))) items.

Definition not_context (item : Item) : bool := negb (String.eqb (key item) "context").

Lemma entity_validate_raises (v : pyval) (e : exn) :
  BusinessEntity.model_validate v = Raise e -> e = ValidationError.
Proof.
  unfold BusinessEntity.model_validate. destruct v; try congruence.
  repeat match goal with
         | |- context [match ?x with _ => _ end] => destruct x
         end; congruence.
Qed.

Lemma map_result_length {A B} (f : A -> result B) (l : list A) (ys : list B) :
  map_result f l = Ok ys -> length ys = length l.
Proof.
  revert ys. induction l as [|x l IH]; simpl; intros ys Hok.
  - injection Hok as <-. reflexivity.
  - destruct (f x); simpl in Hok; [|discriminate].
    destruct (map_result f l); simpl in Hok; [|discriminate].
    injection Hok as <-. simpl. rewrite (IH _ eq_refl). reflexivity.
Qed.

Lemma map_result_raises {A B} (f : A -> result B) (l : list A) (e e0 : exn) :
  (forall x e', f x = Raise e' -> e' = e0) ->
  map_result f l = Raise e -> e = e0.
Proof.
  intros Hf. induction l as [|x l IH]; simpl; [discriminate|].
  destruct (f x) eqn:E; simpl.
  - destruct (map_result f l); simpl; [discriminate|].
    intros [= <-]. apply IH. reflexivity.
  - intros [= <-]. eapply Hf. exact E.
Qed.

Lemma validated_profiles_raises items e :
  validated_profiles items = Raise e -> e = ValidationError.
Proof.
  apply map_result_raises. intros x e'.
  destruct (UserProfile.model_validate (value x)) eqn:E; simpl; [discriminate|].
  intros [= <-]. eapply profile_validate_raises. exact E.
Qed.

Lemma validated_entities_raises items e :
  validated_entities items = Raise e -> e = ValidationError.
Proof.
  apply map_result_raises. intros x e'.
  destruct (BusinessEntity.model_validate (value x)) eqn:E; simpl; [discriminate|].
  intros [= <-]. eapply entity_validate_raises. exact E.
Qed.

Lemma search_limit ns q n k (s : Store.t) :
  length (search ns q (Some n) k s) <= n.
Proof. unfold search. apply firstn_le_length. Qed.

(** The dictionary [search_memory] returns when no validation fails. *)
Definition search_results (ps es cs : list hit) : gmap string (list hit) :=
  <["conversation_history" := cs]>
    (<["business_knowledge" := es]> (<["user_profile" := ps]> ∅)).

Lemma search_results_overwrite_profile ps ps' es cs :
  <["user_profile" := ps']> (search_results ps es cs) = search_results ps' es cs.
Proof.
  unfold search_results. apply map_eq. intros k.
  rewrite !lookup_insert. repeat case_decide; congruence.
Qed.

Lemma search_results_overwrite_business ps es es' cs :
  <["business_knowledge" := es']> (search_results ps es cs) = search_results ps es' cs.
Proof.
  unfold search_results. apply map_eq. intros k.
  rewrite !lookup_insert. repeat case_decide; congruence.
Qed.

Lemma search_results_overwrite_conversation ps es cs cs' :
  <["conversation_history" := cs']> (search_results ps es cs) = search_results ps es cs'.
Proof.
  unfold search_results. apply map_eq. intros k.
  rewrite !lookup_insert. repeat case_decide; congruence.
Qed.

Lemma search_results_dom ps es cs :
  dom (search_results ps es cs)
  = ({["user_profile"; "business_knowledge"; "conversation_history"]} : gset string).
Proof. unfold search_results. rewrite !dom_insert_L, dom_empty_L. set_solver. Qed.

Lemma search_results_lookup ps es cs :
  search_results ps es cs !! "user_profile" = Some ps
  /\ search_results ps es cs !! "business_knowledge" = Some es
  /\ search_results ps es cs !! "conversation_history" = Some cs.
Proof.
  unfold search_results. rewrite !lookup_insert.
  repeat split; repeat case_decide; congruence.
Qed.

(** [search_memory], step by step: each of the three searches may fail,
    and so may the validation of the profile and business hits. *)
Lemma search_memory_steps (query user_id : string) (w : world) :
  let s := w_store w in
  let profile_hits := search (profile_namespace user_id) (Some query) (Some 1) None s in
  let business_hits := search (business_namespace user_id) (Some query) (Some 5) None s in
  let conversation_hits :=
      search (conversation_namespace user_id) (Some query) (Some 3) None s in
  search_memory query user_id w
  = (match search_fault (profile_namespace user_id) (Some query) (Some 1) None s with
     | Some e => Raise e
     | None =>
       match validated_profiles profile_hits with
       | Raise e => Raise e
       | Ok ps =>
         match search_fault (business_namespace user_id) (Some query) (Some 5) None s with
         | Some e => Raise e
         | None =>
           match validated_entities business_hits with
           | Raise e => Raise e
           | Ok es =>
             match search_fault (conversation_namespace user_id)
                                (Some query) (Some 3) None s with
             | Some e => Raise e
             | None =>
               Ok (search_results ps es
                     (map (fun item => HValue (value item))
                          (List.filter not_context conversation_hits)))
             end
           end
         end
       end
     end, w).
Proof.
  intros s profile_hits business_hits conversation_hits.
  subst s profile_hits business_hits conversation_hits.
  unfold search_memory, Effects.bind, store_search, lift, ret.
  fold (profile_namespace user_id) (business_namespace user_id)
       (conversation_namespace user_id).
  fold (search_results [] [] []).
  assert (Hconv : forall ps es,
             (let (r, w') :=
                match search_fault (conversation_namespace user_id)
                                   (Some query) (Some 3) None (w_store w) with
                | Some e => (Raise e, w)
                | None => (Ok (search (conversation_namespace user_id)
                                      (Some query) (Some 3) None (w_store w)), w)
                end in
              match r with
              | Ok hits =>
                (let (r0, w'0) :=
                  match hits with
                  | [] => fun w0 : world => (Ok (search_results ps es []), w0)
                  | _ :: _ =>
                    fun w0 : world =>
                      (Ok (<["conversation_history" :=
                               map (fun item => HValue (value item))
                                   (List.filter
                                      (fun item => negb (String.eqb (key item) "context"))
                                      hits)]> (search_results ps es [])), w0)
                  end w' in
                match r0 with
                | Ok a => (Ok a, w'0)
                | Raise e => (Raise e, w'0)
                end)
              | Raise e => (Raise e, w')
              end)
             = (match search_fault (conversation_namespace user_id)
                                   (Some query) (Some 3) None (w_store w) with
                | Some e => Raise e
                | None =>
                  Ok (search_results ps es
                        (map (fun item => HValue (value item))
                             (List.filter not_context
                                (search (conversation_namespace user_id)
                                        (Some query) (Some 3) None (w_store w)))))
                end, w)).
  { intros ps es.
    destruct (search_fault (conversation_namespace user_id)
                           (Some query) (Some 3) None (w_store w)); [reflexivity|].
    destruct (search (conversation_namespace user_id) (Some query) (Some 3) None (w_store w))
      as [|c0 cr]; [reflexivity|].
    cbn beta iota. rewrite search_results_overwrite_conversation. reflexivity. }
  destruct (search_fault (profile_namespace user_id) (Some query) (Some 1) None (w_store w));
    [reflexivity|].
  cbn beta iota.
  destruct (search (profile_namespace user_id) (Some query) (Some 1) None (w_store w))
    as [|p0 pr].
  - cbn [validated_profiles map_result]. cbn beta iota.
    destruct (search_fault (business_namespace user_id) (Some query) (Some 5) None (w_store w));
      [reflexivity|].
    cbn beta iota.
    destruct (search (business_namespace user_id) (Some query) (Some 5) None (w_store w))
      as [|b0 br].
    + cbn [validated_entities map_result]. cbn beta iota. apply Hconv.
    + fold (validated_entities (b0 :: br)).
      destruct (validated_entities (b0 :: br)) as [es|e]; [|reflexivity].
      cbn beta iota. rewrite search_results_overwrite_business. apply Hconv.
  - fold (validated_profiles (p0 :: pr)).
    destruct (validated_profiles (p0 :: pr)) as [ps|e]; [|reflexivity].
    cbn beta iota. rewrite search_results_overwrite_profile.
    destruct (search_fault (business_namespace user_id) (Some query) (Some 5) None (w_store w));
      [reflexivity|].
    cbn beta iota.
    destruct (search (business_namespace user_id) (Some query) (Some 5) None (w_store w))
      as [|b0 br].
    + cbn [validated_entities map_result]. cbn beta iota. apply Hconv.
    + fold (validated_entities (b0 :: br)).
      destruct (validated_entities (b0 :: br)) as [es|e]; [|reflexivity].
      cbn beta iota. rewrite search_results_overwrite_business. apply Hconv.
Qed.

End Search_steps.

Section Search.
Context {pydantic : Pydantic} {index : Index} {policy : ExtractionPolicy}.
(** The store of this section is one that does not fail. *)
Existing Instance reliable.

(** [search_memory] when the store does not fail. *)
Lemma search_memory_eq (query user_id : string) (w : world) :
  let profile_hits :=
      search (profile_namespace user_id) (Some query) (Some 1) None (w_store w) in
  let business_hits :=
      search (business_namespace user_id) (Some query) (Some 5) None (w_store w) in
  let conversation_hits :=
      search (conversation_namespace user_id) (Some query) (Some 3) None (w_store w) in
  search_memory query user_id w
  = (match validated_profiles profile_hits with
     | Raise e => Raise e
     | Ok ps =>
       match validated_entities business_hits with
       | Raise e => Raise e
       | Ok es =>
         Ok (search_results ps es
               (map (fun item => HValue (value item))
                    (List.filter not_context conversation_hits)))
       end
     end, w).
Proof.
  intros profile_hits business_hits conversation_hits.
  subst profile_hits business_hits conversation_hits.
  rewrite search_memory_steps. cbn [search_fault reliable].
  destruct (validated_profiles _); [|reflexivity].
  destruct (validated_entities _); reflexivity.
Qed.

(** C3, as the code has it: [search_memory] changes nothing in the
    world.  When every profile hit and every business hit validates, it
    returns a dictionary whose keys are exactly the three memory kinds,
    each bound to a list (the empty list when the kind has no hit) of at
    most 1, 5 and 3 entries; the conversation entries are the values of
    the hits whose key is not ["context"].  When a hit does not validate,
    the validation error is raised and no dictionary is returned. *)
Theorem search_memory_shape (query user_id : string) (w : world) :
  let profile_hits :=
      search (profile_namespace user_id) (Some query) (Some 1) None (w_store w) in
  let business_hits :=
      search (business_namespace user_id) (Some query) (Some 5) None (w_store w) in
  let conversation_hits :=
      search (conversation_namespace user_id) (Some query) (Some 3) None (w_store w) in
  let kept := List.filter not_context conversation_hits in
  snd (search_memory query user_id w) = w
  /\ match validated_profiles profile_hits, validated_entities business_hits with
     | Ok ps, Ok es =>
       exists r : gmap string (list hit),
       fst (search_memory query user_id w) = Ok r
       /\ dom r = ({["user_profile"; "business_knowledge"; "conversation_history"]}
                   : gset string)
       /\ r !! "user_profile" = Some ps
       /\ length ps = length profile_hits /\ length ps <= 1
       /\ r !! "business_knowledge" = Some es
       /\ length es = length business_hits /\ length es <= 5
       /\ r !! "conversation_history" = Some (map (fun item => HValue (value item)) kept)
       /\ length kept <= 3
       /\ Forall (fun item => key item <> "context" /\ In item conversation_hits) kept
     | _, _ => fst (search_memory query user_id w) = Raise ValidationError
     end.
Proof.
  intros profile_hits business_hits conversation_hits kept.
  pose proof (search_memory_eq query user_id w) as Heq. cbv zeta in Heq.
  fold profile_hits business_hits conversation_hits in Heq. fold kept in Heq.
  rewrite Heq. cbn [fst snd]. split; [reflexivity|].
  destruct (validated_profiles profile_hits) as [ps|e] eqn:Ep.
  - destruct (validated_entities business_hits) as [es|e] eqn:Eb.
    + exists (search_results ps es (map (fun item => HValue (value item)) kept)).
      destruct (search_results_lookup ps es (map (fun item => HValue (value item)) kept))
        as (L1 & L2 & L3).
      pose proof (map_result_length _ _ _ Ep) as Lp.
      pose proof (map_result_length _ _ _ Eb) as Lb.
      split; [reflexivity|].
      split; [apply search_results_dom|].
      split; [exact L1|]. split; [exact Lp|].
      split; [rewrite Lp; apply search_limit|].
      split; [exact L2|]. split; [exact Lb|].
      split; [rewrite Lb; apply search_limit|].
      split; [exact L3|].
      split.
      * subst kept. etransitivity; [apply List.filter_length_le|apply search_limit].
      * apply List.Forall_forall. intros item Hin. subst kept.
        apply List.filter_In in Hin as [Hin Hk]. split; [|assumption].
        unfold not_context in Hk. apply negb_true_iff in Hk.
        apply String.eqb_neq in Hk. assumption.
    + apply validated_entities_raises in Eb as ->. reflexivity.
  - apply validated_profiles_raises in Ep as ->. reflexivity.
Qed.

End Search.
End MemoryFacts.

(** ** The pipeline stages *)

Module AgentFacts.
Import PyStr Schemas Store Effects Voice_io Memory_store Agent_nodes Main.
Import StoreFacts MemoryFacts.

(** The world after one more event. *)
Definition after (e : event) (w : world) : world :=
  {| w_store := w_store w; w_trace := (w_trace w ++ [e])%list |}.

(** *** The formatter *)

Section Formatter.
Context {services : Services}.

(** A line of the conversation block, in the words of the
    specification: the role capitalized, the content cut to its first
    100 characters and followed by an ellipsis when it is longer. *)
Definition message_line (m : Message.t) : string :=
  "  * " ++ str_capitalize (Message.role m) ++ ": "
         ++ (if Nat.ltb 100 (String.length (Message.content m))
             then take 100 (Message.content m) ++ "..."
             else Message.content m).

(** The lines of one past conversation: its date, then its last two
    messages. *)
Definition conversation_lines (date : string) (msgs : list Message.t) : list string :=
  ("- Date: " ++ date) :: map message_line (last_n 2 msgs).






Lemma last_n_length {A} (n : nat) (l : list A) : length (last_n n l) <= n.
Proof. unfold last_n. rewrite length_skipn. lia. Qed.






End Formatter.

(** *** The stages *)

Section Stages.
Context {pydantic : Pydantic} {index : Index} {faults : Faults}
        {policy : ExtractionPolicy} {services : Services}.

(** C4, as the code has it: on a state without messages the retrieve
    stage returns, having only logged its entry, the state with
    [memory_search_results] set to the empty dictionary: a dictionary,
    not an absent or null value, but with no entry for any of the three
    memory kinds.  The formatter reads a missing kind like an empty
    list: the empty dictionary formats to the empty text. *)
Theorem search_memory_no_messages
        (u : string) (r : option (gmap string (list hit))) (sp : option string)
        (w : world) :
  let state := {| messages := []; user_id := u;
                  memory_search_results := r; spoken_response := sp |} in
  Agent_nodes.search_memory state w
  = (Ok {| messages := []; user_id := u;
           memory_search_results := Some ∅; spoken_response := sp |},
     after (EvLog "Searching memory...") w)
  /\ (∅ : gmap string (list hit)) !! "user_profile" = None
  /\ (∅ : gmap string (list hit)) !! "business_knowledge" = None
  /\ (∅ : gmap string (list hit)) !! "conversation_history" = None
  /\ _format_memory_for_prompt ∅ = Ok "".
Proof.
  intros state. repeat split.
Qed.

(** One turn of the compiled graph is the four stages in a row. *)
Lemma invoke_stages (i : turn_input) (state : AssistantState) :
  invoke i state
  = (s0 <- voice_input (transcription i) state ;;
     s1 <- Agent_nodes.search_memory s0 ;;
     s2 <- generate_response (conversation_id i) (timestamp i) s1 ;;
     s3 <- voice_output s2 ;;
     ret s3)%py.
Proof. reflexivity. Qed.

Lemma bind_ret {A} (c : M A) (w : world) : (x <- c ;; ret x)%py w = c w.
Proof. unfold Effects.bind, ret. destruct (c w) as [[a|e] w']; reflexivity. Qed.

(** C2, as the code has it: on an empty transcript the capture stage
    logs its entry, makes one playback call with the fallback prompt and
    returns the state it was given, with the same messages.  The turn
    goes on: the graph has one edge out of each node, so the retrieve,
    generate and render stages run next, on that state. *)
Theorem voice_input_empty_transcript
        (state : AssistantState) (w : world) (cid ts : string) :
  let w1 := after (EvSpeak fallback_prompt) (after (EvLog "Recording user input...") w) in
  voice_input "" state w = (Ok state, w1)
  /\ List.filter is_speak (w_trace w1)
     = (List.filter is_speak (w_trace w) ++ [EvSpeak fallback_prompt])%list
  /\ invoke {| transcription := ""; conversation_id := cid; timestamp := ts |} state w
     = (s1 <- Agent_nodes.search_memory state ;;
        s2 <- generate_response cid ts s1 ;;
        voice_output s2)%py w1.
Proof.
  intros w1. split; [reflexivity|]. split.
  - subst w1. cbn [after w_trace]. rewrite !List.filter_app. cbn [List.filter is_speak].
    rewrite app_nil_r. reflexivity.
  - rewrite invoke_stages. cbn [transcription conversation_id timestamp].
    unfold Effects.bind at 1.
    change (voice_input "" state w) with (Ok state, w1). cbn beta iota.
    unfold Effects.bind at 1 4.
    destruct (Agent_nodes.search_memory state w1) as [[s1|e] w2]; [|reflexivity].
    unfold Effects.bind at 1 3.
    destruct (generate_response cid ts s1 w2) as [[s2|e] w3]; [|reflexivity].
    apply bind_ret.
Qed.

(** The dictionary the generate stage formats, and the prompt it sends. *)
Definition results_of (state : AssistantState) : gmap string (list hit) :=
  match memory_search_results state with
  | Some r => r
  | None => ∅
  end.

Definition prompt_of (state : AssistantState) (memory_context : string)
  : list Message.t :=
  {| Message.role := "system";
     Message.content := system_prompt memory_context (user_id state) |}
    :: last_n Config.MAX_CONVERSATION_HISTORY (messages state).

Definition assistant_message (response : string) : Message.t :=
  {| Message.role := "assistant"; Message.content := response |}.

(** C1, as the code has it: on a state with at least one message, once
    the memory context is formatted and the chat model has answered, the
    generate stage logs that it updates the memory and makes the three
    writes in order: the profile update, the business update, the [put]
    of the conversation.  When all three succeed the stage returns the
    state with the assistant message appended and the spoken response
    set, and the conversation is in the store the updates left.  When
    one of them fails, the later ones are not made and nothing catches or
    logs the exception: the stage raises it to its caller, returns no
    state, and the last thing logged is the entry of the memory update. *)
Theorem generate_response_memory_update
        (cid ts : string) (state : AssistantState) (w : world)
        (memory_context response : string) :
  messages state <> [] ->
  _format_memory_for_prompt (results_of state) = Ok memory_context ->
  llm_invoke (prompt_of state memory_context) = Ok response ->
  let msgs := (messages state ++ [assistant_message response])%list in
  let ns := conversation_namespace (user_id state) in
  let record := conversation_record ts msgs in
  let logged :=
      (w_trace w ++ [EvLog "Generating response...";
                     EvComplete (prompt_of state memory_context);
                     EvLog ("Generated response: " ++ take 100 response ++ "...");
                     EvLog "Updating memory..."])%list in
  generate_response cid ts state w
  = match profile_manager_invoke msgs (user_id state) (w_store w) with
    | (Raise e, s1) => (Raise e, {| w_store := s1; w_trace := logged |})
    | (Ok _, s1) =>
      match business_manager_invoke msgs (user_id state) s1 with
      | (Raise e, s2) => (Raise e, {| w_store := s2; w_trace := logged |})
      | (Ok _, s2) =>
        match put_fault ns cid record s2 with
        | Some e => (Raise e, {| w_store := s2; w_trace := logged |})
        | None =>
          (Ok {| messages := msgs; user_id := user_id state;
                 memory_search_results := memory_search_results state;
                 spoken_response := Some (optimize_for_speech response) |},
           {| w_store := put ns cid record s2;
              w_trace := (logged ++ [EvPut ns cid record])%list |})
        end
      end
    end.
Proof.
  intros Hne Hfmt Hllm msgs ns record logged. subst logged record ns msgs.
  unfold generate_response.
  destruct (messages state) as [|m0 ms] eqn:Em; [congruence|].
  rewrite <- Em in *. fold (results_of state).
  set (msgs := (messages state ++ [assistant_message response])%list).
  unfold _update_memory, update_user_profile, update_business_knowledge,
    save_conversation, store_put.
  unfold Effects.bind, emit, lift, ret.
  rewrite Hfmt. cbn beta iota delta [w_store w_trace].
  fold (prompt_of state memory_context). rewrite Hllm.
  fold (assistant_message response). fold msgs.
  fold (conversation_namespace (user_id state)) (conversation_record ts msgs).
  rewrite <- !app_assoc. cbn [app].
  destruct (profile_manager_invoke msgs (user_id state) (w_store w)) as [[[]|e] s1];
    [|reflexivity].
  cbn beta iota delta [w_store w_trace].
  destruct (business_manager_invoke msgs (user_id state) s1) as [[[]|e] s2];
    [|reflexivity].
  cbn beta iota delta [w_store w_trace].
  destruct (put_fault (conversation_namespace (user_id state)) cid
                      (conversation_record ts msgs) s2) as [e|]; [reflexivity|].
  cbn beta iota delta [w_store w_trace]. rewrite <- !app_assoc. reflexivity.
Qed.

End Stages.
End AgentFacts.

(** ** Runs on concrete inputs *)

Module Runs.
Import PyStr Schemas Store Effects Voice_io Memory_store Agent_nodes Main.
Import VoiceFacts StoreFacts MemoryFacts AgentFacts Scenario.

(** In the runs the store does not fail, except where a run names
    another one. *)
#[local] Existing Instance reliable.

(** The chat model has answered; the profile update then fails. *)
Definition failed_generate : result AssistantState * world :=
  generate_response (faults := reliable)
                    (policy := failing_profile_policy) (services := fixed_answer)
                    (conversation_id silent_turn) (timestamp silent_turn)
                    one_message empty_world.

(** The chat model has answered and both updates return; the store then
    fails to save the conversation. *)
Definition failed_save : result AssistantState * world :=
  generate_response (faults := unavailable)
                    (policy := quiet_policy) (services := fixed_answer)
                    (conversation_id silent_turn) (timestamp silent_turn)
                    one_message empty_world.

(** C1 does not hold as stated: with a profile update that fails, the
    generate stage, run on a state with one message, raises the failure
    to its caller after the completion was obtained; it returns no
    state, so neither the assistant message nor a spoken response is in
    any output.  The whole turn raises too, and nothing is spoken.  The
    same happens when the two updates return and the store fails to save
    the conversation. *)
Lemma generate_response_write_failure_propagates :
  length (messages one_message) = 1
  /\ fst (profile_manager_invoke (ExtractionPolicy := failing_profile_policy)
            [hi; assistant_message "Hello **there**"] "default-user" [])
     = Raise (ServiceError "extraction failed")
  /\ fst failed_generate = Raise (ServiceError "extraction failed")
  /\ (forall state', fst failed_generate <> Ok state')
  /\ List.filter is_complete (w_trace (snd failed_generate))
     = [EvComplete (prompt_of one_message "")]
  /\ (let turn := invoke (pydantic := strict_pydantic) (index := insertion_order)
                         (faults := reliable)
                         (policy := failing_profile_policy) (services := fixed_answer)
                         {| transcription := "what did I say";
                            conversation_id := conversation_id silent_turn;
                            timestamp := timestamp silent_turn |}
                         one_message empty_world in
      fst turn = Raise (ServiceError "extraction failed")
      /\ List.filter is_speak (w_trace (snd turn)) = [])
  /\ fst failed_save = Raise (ServiceError "store unavailable")
  /\ (forall state', fst failed_save <> Ok state')
  /\ w_store (snd failed_save) = [].
Proof.
  split; [reflexivity|]. split; [reflexivity|].
  assert (E : fst failed_generate = Raise (ServiceError "extraction failed"))
    by (vm_compute; reflexivity).
  split; [exact E|]. split; [rewrite E; discriminate|].
  split; [vm_compute; reflexivity|].
  split; [split; vm_compute; reflexivity|].
  assert (E' : fst failed_save = Raise (ServiceError "store unavailable"))
    by (vm_compute; reflexivity).
  split; [exact E'|]. split; [rewrite E'; discriminate|].
  vm_compute; reflexivity.
Qed.

(** The amended C1 at a concrete input.  When every write succeeds the
    stage returns and the conversation is in the store; when the store
    fails on the third write the stage raises, nothing is stored, and
    the last thing logged is the entry of the memory update. *)
Lemma generate_response_memory_update_witness :
  messages one_message <> []
  /\ _format_memory_for_prompt (services := fixed_answer) (results_of one_message) = Ok ""
  /\ llm_invoke (Services := fixed_answer) (prompt_of one_message "")
     = Ok "Hello **there**"
  /\ generate_response (faults := reliable) (policy := quiet_policy)
                       (services := fixed_answer)
                       "id-1" "2025-01-01T10:00:00" one_message empty_world
     = (Ok {| messages := [hi; assistant_message "Hello **there**"];
              user_id := "default-user";
              memory_search_results := None;
              spoken_response := Some "Hello there" |},
        {| w_store :=
             [ conversation_item "default-user" "id-1" "2025-01-01T10:00:00"
                                 [hi; assistant_message "Hello **there**"] ];
           w_trace :=
             [EvLog "Generating response...";
              EvComplete (prompt_of one_message "");
              EvLog "Generated response: Hello **there**...";
              EvLog "Updating memory...";
              EvPut (conversation_namespace "default-user") "id-1"
                    (conversation_record "2025-01-01T10:00:00"
                                         [hi; assistant_message "Hello **there**"])] |})
  /\ generate_response (faults := unavailable) (policy := quiet_policy)
                       (services := fixed_answer)
                       "id-1" "2025-01-01T10:00:00" one_message empty_world
     = (Raise (ServiceError "store unavailable"),
        {| w_store := [];
           w_trace :=
             [EvLog "Generating response...";
              EvComplete (prompt_of one_message "");
              EvLog "Generated response: Hello **there**...";
              EvLog "Updating memory..."] |}).
Proof.
  assert (H1 : messages one_message <> []) by discriminate.
  assert (H2 : _format_memory_for_prompt (services := fixed_answer)
                 (results_of one_message) = Ok "") by (vm_compute; reflexivity).
  assert (H3 : llm_invoke (Services := fixed_answer) (prompt_of one_message "")
               = Ok "Hello **there**") by reflexivity.
  split; [exact H1|]. split; [exact H2|]. split; [exact H3|].
  split.
  - exact (generate_response_memory_update
             (faults := reliable) (policy := quiet_policy) (services := fixed_answer)
             "id-1" "2025-01-01T10:00:00" one_message empty_world
             "" "Hello **there**" H1 H2 H3).
  - exact (generate_response_memory_update
             (faults := unavailable) (policy := quiet_policy) (services := fixed_answer)
             "id-1" "2025-01-01T10:00:00" one_message empty_world
             "" "Hello **there**" H1 H2 H3).
Defined.

(** The turn of the state [one_message] on an empty transcript. *)
Definition silent_run : result AssistantState * world :=
  invoke (pydantic := strict_pydantic) (index := insertion_order)
         (policy := quiet_policy) (services := fixed_answer)
         silent_turn one_message empty_world.

(** C2 does not hold as stated: on an empty transcript the turn does
    not stop after the capture stage.  The three later stages log their
    entry, the chat model is called, a second playback call speaks the
    answer, and the state the turn returns has one message more than
    the state it was given. *)
Lemma empty_transcript_turn_runs_all_stages :
  transcription silent_turn = ""
  /\ (exists state' w',
         silent_run = (Ok state', w')
         /\ length (messages one_message) = 1
         /\ length (messages state') = 2
         /\ List.filter is_speak (w_trace w')
            = [EvSpeak fallback_prompt; EvSpeak "Hello there"]
         /\ In (EvLog "Searching memory...") (w_trace w')
         /\ In (EvLog "Generating response...") (w_trace w')
         /\ In (EvLog "Converting response to speech...") (w_trace w')
         /\ length (List.filter is_complete (w_trace w')) = 1).
Proof.
  split; [reflexivity|].
  eexists. eexists. split; [vm_compute; reflexivity|].
  repeat split; try reflexivity; cbn; tauto.
Qed.

(** C3 does not hold as stated: on a store whose business namespace
    holds a record without the required name, [search_memory] returns no
    dictionary; the validation error of that record is raised. *)
Lemma search_memory_raises_on_invalid_record :
  let out := Memory_store.search_memory (pydantic := strict_pydantic)
               (index := insertion_order) "project" "default-user"
               store_with_nameless_entity in
  fst out = Raise ValidationError
  /\ (forall r, fst out <> Ok r).
Proof.
  cbv zeta.
  assert (E : fst (Memory_store.search_memory (pydantic := strict_pydantic)
                     (index := insertion_order) "project" "default-user"
                     store_with_nameless_entity) = Raise ValidationError)
    by (vm_compute; reflexivity).
  split; [exact E|]. intros r. rewrite E. discriminate.
Qed.

(** C4 does not hold as stated: on the initial state, which has no
    message, the retrieve stage sets the search result to the empty
    dictionary; none of the three kinds is bound in it, to an empty list
    or to anything else. *)
Lemma search_memory_no_messages_binds_no_kind :
  exists state' w',
    Agent_nodes.search_memory (pydantic := strict_pydantic) (index := insertion_order)
                              (services := fixed_answer)
                              (initial_state "default-user") empty_world
    = (Ok state', w')
    /\ messages (initial_state "default-user") = []
    /\ memory_search_results state' = Some ∅
    /\ (memory_search_results state' ≫= fun r => r !! "user_profile") = None
    /\ (memory_search_results state' ≫= fun r => r !! "business_knowledge") = None
    /\ (memory_search_results state' ≫= fun r => r !! "conversation_history") = None
    /\ (memory_search_results state' ≫= fun r => r !! "user_profile") <> Some [].
Proof.
  eexists. eexists. split; [reflexivity|].
  repeat split. discriminate.
Qed.

(** C9 does not hold as stated: a stored profile with the key
    ["nickname"], which is not a field of [UserProfile], validates
    without error; the returned profile has no such field, so the stored
    value under that key is dropped silently. *)
Lemma get_user_profile_drops_unknown_key :
  dict_get "nickname" profile_with_nickname = Some (PyStr "Az")
  /\ is_profile_field "nickname" = false
  /\ fst (get_user_profile (pydantic := strict_pydantic) (index := insertion_order)
                           "default-user" store_with_nickname)
     = Ok (Some {| UserProfile.name := Some "Aaron";
                   UserProfile.role := None;
                   UserProfile.communication_preferences := None;
                   UserProfile.interests := [];
                   UserProfile.expertise := [];
                   UserProfile.voice_preferences := VoicePreferences.default |}).
Proof. repeat split. Qed.








(** Two marks of emphasis between two newlines. *)
Definition stars_between_newlines : string := String nl ("**" ++ String nl "").

(** C10 does not hold as stated: removing the [**] comes last and can
    bring two newlines together, or complete a URL.  The result then
    holds a run of two newlines, or a URL, and a second application
    changes it. *)
Lemma optimize_for_speech_not_idempotent :
  optimize_for_speech stars_between_newlines = two_newlines
  /\ contains two_newlines (optimize_for_speech stars_between_newlines) = true
  /\ optimize_for_speech (optimize_for_speech stars_between_newlines) = String nl ""
  /\ optimize_for_speech (optimize_for_speech stars_between_newlines)
     <> optimize_for_speech stars_between_newlines
  /\ optimize_for_speech "http**://example.com" = "http://example.com"
  /\ match_url (optimize_for_speech "http**://example.com") = Some 18
  /\ optimize_for_speech (optimize_for_speech "http**://example.com") = "link".
Proof.
  repeat split; try (vm_compute; reflexivity). vm_compute. discriminate.
Qed.

Definition note : string :=
  "see https://example.com/a?b=1 now" ++ String nl (String nl (String nl "bye")).

(** The amended C10 at a concrete text, with a URL and three newlines. *)
Lemma optimize_for_speech_stable_witness :
  contains "**" note = false
  /\ optimize_for_speech note = "see link now" ++ String nl "bye"
  /\ optimize_for_speech (optimize_for_speech note) = optimize_for_speech note.
Proof.
  assert (H : contains "**" note = false) by (vm_compute; reflexivity).
  split; [exact H|]. split; [vm_compute; reflexivity|].
  exact (proj1 (proj2 (optimize_for_speech_stable note) H)).
Defined.

End Runs.


(** * Further properties of the code *)

(** ** src/voice_io.py: [speak] and [optimize_for_speech] *)

Module VoiceMore.
Import PyStr Effects Voice_io VoiceFacts.

Lemma positions_clean (m : matcher) s :
  (forall k, m (drop k s) = None) -> clean m s.
Proof.
  induction s as [|c t IH]; intros Hk; [exact I|]. split.
  - exact (Hk 0).
  - apply IH. intros k. exact (Hk (S k)).
Qed.

Lemma optimize_for_speech_no_stars s : contains "**" (optimize_for_speech s) = false.
Proof.
  apply contains_clean; [discriminate|]. rewrite optimize_for_speech_steps.
  apply replace_stars_clean.
Qed.

Lemma replace_no_stars s : contains "**" (replace "**" "" s) = false.
Proof. apply contains_clean; [discriminate|]. apply replace_stars_clean. Qed.

(** X1: a text in which no URL starts at any position, with no two newlines
    in a row and no [**], goes through [optimize_for_speech] unchanged. *)
Theorem optimize_for_speech_plain_text (s : string) :
  (forall k, match_url (drop k s) = None) ->
  contains two_newlines s = false ->
  contains "**" s = false ->
  optimize_for_speech s = s.
Proof.
  intros Hurl Hnl Hstar.
  apply positions_clean in Hurl.
  apply contains_clean in Hnl; [|discriminate].
  apply (clean_iff match_newlines (literal two_newlines)) in Hnl;
    [|apply newlines_literal].
  apply contains_clean in Hstar; [|discriminate].
  rewrite optimize_for_speech_steps. unfold link_urls.
  rewrite (re_sub_clean _ _ _ Hurl). unfold collapse_newlines.
  rewrite (re_sub_clean _ _ _ Hnl). unfold remove_stars, replace.
  apply re_sub_clean. exact Hstar.
Qed.

(** X2: [speak] does nothing on the empty text.  On any other text it makes
    one playback call, with the text without its [**]: what is sent to
    speech synthesis never contains [**].  It never fails and never
    touches the store. *)
Theorem speak_sends_no_stars (text : string) (w : world) :
  fst (speak text w) = Ok tt
  /\ w_store (snd (speak text w)) = w_store w
  /\ match text with
     | EmptyString => snd (speak text w) = w
     | String _ _ =>
       w_trace (snd (speak text w))
       = (w_trace w ++ [EvSpeak (replace "**" "" text)])%list
       /\ contains "**" (replace "**" "" text) = false
     end.
Proof.
  destruct text as [|c t].
  - repeat split.
  - unfold speak, emit. cbn [truthy negb fst snd w_store w_trace].
    repeat split. apply replace_no_stars.
Qed.

End VoiceMore.

(** ** src/memory_store.py: the other operations of the memory manager *)

Module MemoryMore.
Import Schemas Store Effects Memory_store StoreFacts SchemaFacts MemoryFacts.

(** Writing a second time at a key replaces what the first write left. *)
Lemma put_put ns k v1 v2 (s : Store.t) :
  put ns k v2 (put ns k v1 s) = put ns k v2 s.
Proof.
  induction s as [|it s IH]; simpl.
  - rewrite at_key_new. reflexivity.
  - destruct (at_key ns k it) eqn:E; simpl.
    + rewrite at_key_new. reflexivity.
    + rewrite E, IH. reflexivity.
Qed.

(** How many records a namespace holds after a [put] does not depend on
    the value written. *)
Lemma put_length_value ns k v v' ns' (s : Store.t) :
  length (in_namespace ns' (put ns k v s)) = length (in_namespace ns' (put ns k v' s)).
Proof.
  unfold in_namespace. induction s as [|it s IH]; simpl.
  - destruct (same_namespace ns' ns); reflexivity.
  - destruct (at_key ns k it); simpl.
    + destruct (same_namespace ns' ns); reflexivity.
    + destruct (same_namespace ns' (item_namespace it)); simpl; rewrite IH; reflexivity.
Qed.

Section Reads.
Context {pydantic : Pydantic} {index : Index} {policy : ExtractionPolicy}.
(** The store of this section is one that does not fail. *)
Existing Instance reliable.

(** The reads depend on the store through the records of one namespace. *)
Lemma get_user_profile_namespace user_id (w w' : world) :
  in_namespace (profile_namespace user_id) (w_store w')
  = in_namespace (profile_namespace user_id) (w_store w) ->
  fst (get_user_profile user_id w') = fst (get_user_profile user_id w).
Proof.
  intros E. unfold get_user_profile, Effects.bind, store_search, lift, ret. cbn [search_fault reliable].
  rewrite !search_all. fold (profile_namespace user_id). rewrite E.
  destruct (in_namespace (profile_namespace user_id) (w_store w)) as [|first rest];
    [reflexivity|].
  destruct (UserProfile.model_validate (value first)); reflexivity.
Qed.

Lemma search_namespace ns q l k (s s' : Store.t) :
  in_namespace ns s' = in_namespace ns s -> search ns q l k s' = search ns q l k s.
Proof. intros E. unfold search. rewrite E. reflexivity. Qed.

Lemma get_business_entities_namespace query user_id (w w' : world) :
  in_namespace (business_namespace user_id) (w_store w')
  = in_namespace (business_namespace user_id) (w_store w) ->
  fst (get_business_entities query user_id w')
  = fst (get_business_entities query user_id w).
Proof.
  intros E. unfold get_business_entities, Effects.bind, store_search, lift. cbn [search_fault reliable].
  fold (business_namespace user_id).
  destruct query as [[|c q]|]; cbn [PyStr.truthy fst snd];
    rewrite (search_namespace _ _ _ _ _ _ E);
    match goal with
    | |- context [map_result ?f ?l] => destruct (map_result f l); reflexivity
    end.
Qed.

Lemma get_conversation_context_namespace user_id (w w' : world) :
  in_namespace (conversation_namespace user_id) (w_store w')
  = in_namespace (conversation_namespace user_id) (w_store w) ->
  fst (get_conversation_context user_id w')
  = fst (get_conversation_context user_id w).
Proof.
  intros E. unfold get_conversation_context, Effects.bind, store_search, lift, ret. cbn [search_fault reliable].
  fold (conversation_namespace user_id).
  rewrite (search_namespace _ _ _ _ _ _ E).
  destruct (search (conversation_namespace user_id) None None (Some "context") (w_store w))
    as [|first rest]; [reflexivity|].
  destruct (ConversationContext.model_validate (value first)); reflexivity.
Qed.

(** X3: [get_business_entities] changes nothing.  An empty query is no
    query: both scan the whole namespace, in store order; any other
    query ranks the records.  The call returns one entity per record
    found when all of them validate, and raises the validation error
    when one does not. *)
Theorem get_business_entities_scan (query : option string) (user_id : string) (w : world) :
  let records := in_namespace (business_namespace user_id) (w_store w) in
  let found := match query with
               | Some (String c q) => rank (String c q) records
               | _ => records
               end in
  get_business_entities (Some "") user_id w = get_business_entities None user_id w
  /\ snd (get_business_entities query user_id w) = w
  /\ match map_result (fun item => BusinessEntity.model_validate (value item)) found with
     | Ok entities =>
       fst (get_business_entities query user_id w) = Ok entities
       /\ length entities = length found
     | Raise _ => fst (get_business_entities query user_id w) = Raise ValidationError
     end.
Proof.
  intros records found. split; [reflexivity|].
  assert (E : get_business_entities query user_id w
              = (map_result (fun item => BusinessEntity.model_validate (value item)) found,
                 w)).
  { subst found records. destruct query as [[|c q]|]; reflexivity. }
  rewrite E. cbn [fst snd]. split; [reflexivity|].
  destruct (map_result (fun item => BusinessEntity.model_validate (value item)) found)
    as [entities|e] eqn:Em.
  - split; [reflexivity|]. exact (map_result_length _ _ _ Em).
  - f_equal. revert Em. apply map_result_raises. intros x e'.
    apply entity_validate_raises.
Qed.

(** X4: saving a conversation or updating the context of a user leaves the
    other memory kinds as they were, for every user: the profile and the
    business entities read afterwards are those read before. *)
Theorem conversation_writes_keep_other_kinds
        (k ts : string) (msgs : list Message.t) (c : ConversationContext.t)
        (user_id other : string) (query : option string) (w : world) :
  let saved := snd (save_conversation k ts msgs user_id w) in
  let updated := snd (update_conversation_context c user_id w) in
  fst (get_user_profile other saved) = fst (get_user_profile other w)
  /\ fst (get_business_entities query other saved)
     = fst (get_business_entities query other w)
  /\ fst (get_user_profile other updated) = fst (get_user_profile other w)
  /\ fst (get_business_entities query other updated)
     = fst (get_business_entities query other w).
Proof.
  intros saved updated. subst saved updated.
  unfold save_conversation, update_conversation_context, store_put. cbn [put_fault reliable]. cbn [snd].
  repeat split.
  - apply get_user_profile_namespace. cbn [w_store].
    apply in_namespace_put_other. discriminate.
  - apply get_business_entities_namespace. cbn [w_store].
    apply in_namespace_put_other. discriminate.
  - apply get_user_profile_namespace. cbn [w_store].
    apply in_namespace_put_other. discriminate.
  - apply get_business_entities_namespace. cbn [w_store].
    apply in_namespace_put_other. discriminate.
Qed.

(** X5: saving a conversation or updating the context of one user leaves the
    conversation namespace of every other user as it was, and so the
    context read for that user. *)
Theorem conversation_writes_keep_other_users
        (k ts : string) (msgs : list Message.t) (c : ConversationContext.t)
        (user_id other : string) (w : world) :
  other <> user_id ->
  let saved := snd (save_conversation k ts msgs user_id w) in
  let updated := snd (update_conversation_context c user_id w) in
  search (conversation_namespace other) None None None (w_store saved)
  = search (conversation_namespace other) None None None (w_store w)
  /\ fst (get_conversation_context other saved) = fst (get_conversation_context other w)
  /\ search (conversation_namespace other) None None None (w_store updated)
     = search (conversation_namespace other) None None None (w_store w)
  /\ fst (get_conversation_context other updated)
     = fst (get_conversation_context other w).
Proof.
  intros Hne saved updated. subst saved updated.
  unfold save_conversation, update_conversation_context, store_put. cbn [put_fault reliable]. cbn [snd].
  assert (Hns : conversation_namespace other <> conversation_namespace user_id).
  { unfold conversation_namespace. intros [= E]. auto. }
  repeat split.
  - rewrite !search_all. cbn [w_store]. apply in_namespace_put_other. exact Hns.
  - apply get_conversation_context_namespace. cbn [w_store].
    apply in_namespace_put_other. exact Hns.
  - rewrite !search_all. cbn [w_store]. apply in_namespace_put_other. exact Hns.
  - apply get_conversation_context_namespace. cbn [w_store].
    apply in_namespace_put_other. exact Hns.
Qed.

(** X6: of two updates of the context in a row only the last one counts:
    the store is the one the second update alone would have left, the
    context read back is the second one, and the second update adds no
    record to the namespace. *)
Theorem update_conversation_context_last_write
        (c1 c2 : ConversationContext.t) (user_id : string) (w : world) :
  let ns := conversation_namespace user_id in
  let once := snd (update_conversation_context c1 user_id w) in
  let twice := snd (update_conversation_context c2 user_id once) in
  w_store twice = w_store (snd (update_conversation_context c2 user_id w))
  /\ get_conversation_context user_id twice = (Ok c2, twice)
  /\ length (search ns None None None (w_store twice))
     = length (search ns None None None (w_store once)).
Proof.
  intros ns once twice. subst ns once twice.
  unfold update_conversation_context, store_put. cbn [put_fault reliable]. cbn [snd w_store].
  fold (conversation_namespace user_id).
  split; [apply put_put|]. split.
  - erewrite get_context_present.
    + rewrite context_validate_dump. reflexivity.
    + cbn [w_store]. apply get_put_same.
  - rewrite !search_all, put_put. apply put_length_value.
Qed.

End Reads.
End MemoryMore.

(** ** src/agent_nodes.py: the stages on their other paths *)

Module AgentMore.
Import PyStr Schemas Store Effects Voice_io Memory_store Agent_nodes Main.
Import VoiceFacts StoreFacts MemoryFacts AgentFacts VoiceMore.

(** An error the store raised on one of the three searches of the memory
    search for a query. *)
Definition search_failure `{Faults} (query uid : string) (s : Store.t) (e : exn) : Prop :=
  search_fault (profile_namespace uid) (Some query) (Some 1) None s = Some e
  \/ search_fault (business_namespace uid) (Some query) (Some 5) None s = Some e
  \/ search_fault (conversation_namespace uid) (Some query) (Some 3) None s = Some e.

(** A memory kind without hits: not in the dictionary, or bound to the
    empty list. *)
Definition no_hits (r : gmap string (list hit)) (kind : string) : Prop :=
  r !! kind = None \/ r !! kind = Some [].

(** The lines of one business entity: its type, capitalized, and name,
    then one line for each attribute. *)
Definition entity_lines `{Services} (e : BusinessEntity.t) : list string :=
  ("- " ++ str_capitalize (BusinessEntity.entity_type e) ++ ": " ++ BusinessEntity.name e)
    :: map (fun kv => "  * " ++ fst kv ++ ": " ++ py_str (snd kv))
           (BusinessEntity.attributes e).

Definition user_message (text : string) : Message.t :=
  {| Message.role := "user"; Message.content := text |}.

Section Formatter.
Context {services : Services}.

(** X7: with no hit of any kind the memory context is the empty text: a
    result without entries and a result of three empty lists format
    alike. *)
Theorem format_memory_no_hits (r : gmap string (list hit)) :
  no_hits r "user_profile" ->
  no_hits r "business_knowledge" ->
  no_hits r "conversation_history" ->
  _format_memory_for_prompt r = Ok "".
Proof.
  unfold no_hits, _format_memory_for_prompt.
  intros [-> | ->] [-> | ->] [-> | ->]; reflexivity.
Qed.

Lemma map_result_entity_lines (es : list BusinessEntity.t) :
  map_result format_entity (map HEntity es) = Ok (map entity_lines es).
Proof.
  induction es as [|e es IH]; [reflexivity|].
  cbn [map map_result]. rewrite IH. reflexivity.
Qed.

(** X8: business entities alone: formatting never fails; the text is the
    heading, which starts with a newline, then the lines of each entity
    in the order of the hits, every attribute on a line of its own.  The
    first line of an entity has its type as [str.capitalize] gives it:
    for an ASCII type, first letter upper case and the rest lower
    case. *)
Theorem format_business_block (e : BusinessEntity.t) (es : list BusinessEntity.t) :
  _format_memory_for_prompt (search_results [] (map HEntity (e :: es)) [])
  = Ok (join newline ((newline ++ "BUSINESS KNOWLEDGE:")
                        :: concat (map entity_lines (e :: es))))
  /\ length (concat (map entity_lines (e :: es)))
     = length (e :: es)
       + length (concat (map BusinessEntity.attributes (e :: es)))
  /\ (is_ascii (BusinessEntity.entity_type e) = true ->
      hd "" (entity_lines e)
      = "- " ++ ascii_capitalize (BusinessEntity.entity_type e) ++ ": "
             ++ BusinessEntity.name e).
Proof.
  split; [|split].
  - unfold _format_memory_for_prompt.
    destruct (search_results_lookup [] (map HEntity (e :: es)) []) as (-> & -> & ->).
    cbn [Py.bind]. change (HEntity e :: map HEntity es) with (map HEntity (e :: es)).
    rewrite map_result_entity_lines. cbn [Py.bind map]. rewrite app_nil_r. reflexivity.
  - generalize (e :: es). intros l. induction l as [|x l IH]; [reflexivity|].
    cbn [map concat]. rewrite !length_app, IH. unfold entity_lines at 1.
    cbn [length]. rewrite length_map. lia.
  - intros Hascii. unfold entity_lines. cbn [hd].
    rewrite (str_capitalize_ascii _ Hascii). reflexivity.
Qed.

End Formatter.

Section Stages.
Context {pydantic : Pydantic} {index : Index} {faults : Faults}
        {policy : ExtractionPolicy} {services : Services}.

(** X9: on a transcript that is not empty the capture stage appends one
    message, of role user and with the transcript as content, changes
    nothing else in the state, makes no playback call and leaves the
    store alone. *)
Theorem voice_input_appends (c : ascii) (t : string) (state : AssistantState) (w : world) :
  let heard := String c t in
  let out := voice_input heard state w in
  fst out = Ok {| messages := messages state ++ [user_message heard];
                  user_id := user_id state;
                  memory_search_results := memory_search_results state;
                  spoken_response := spoken_response state |}
  /\ w_store (snd out) = w_store w
  /\ List.filter is_speak (w_trace (snd out)) = List.filter is_speak (w_trace w).
Proof.
  cbv zeta. unfold voice_input, Effects.bind, emit, ret.
  cbn [truthy negb fst snd w_store w_trace].
  repeat split. rewrite !List.filter_app. cbn [List.filter is_speak].
  rewrite !app_nil_r. reflexivity.
Qed.

(** X10: the render stage returns the state it was given and leaves the
    store alone.  It makes a playback call exactly when the state holds
    a spoken response that is not empty, and the text it plays contains
    no [**]. *)
Theorem voice_output_plays_response (state : AssistantState) (w : world) :
  let out := voice_output state w in
  fst out = Ok state
  /\ w_store (snd out) = w_store w
  /\ match spoken_response state with
     | Some (String c t) =>
       List.filter is_speak (w_trace (snd out))
       = (List.filter is_speak (w_trace w) ++ [EvSpeak (replace "**" "" (String c t))])%list
       /\ contains "**" (replace "**" "" (String c t)) = false
     | _ => List.filter is_speak (w_trace (snd out)) = List.filter is_speak (w_trace w)
     end.
Proof.
  cbv zeta. unfold voice_output.
  destruct (spoken_response state) as [[|c t]|];
    unfold Effects.bind, emit, ret, speak, default, id;
    cbn [truthy_opt truthy negb fst snd w_store w_trace];
    unfold emit; cbn [fst snd w_store w_trace];
    repeat split;
    rewrite ?List.filter_app; cbn [List.filter is_speak]; rewrite ?app_nil_r;
    try reflexivity.
  apply replace_no_stars.
Qed.

(** The memory update, step by step. *)
Lemma update_memory_eq (cid ts : string) (msgs : list Message.t) (uid : string) (w : world) :
  _update_memory cid ts msgs uid w
  = let trace := (w_trace w ++ [EvLog "Updating memory..."])%list in
    let ns := conversation_namespace uid in
    let record := conversation_record ts msgs in
    match profile_manager_invoke msgs uid (w_store w) with
    | (Raise e, s1) => (Raise e, {| w_store := s1; w_trace := trace |})
    | (Ok _, s1) =>
      match business_manager_invoke msgs uid s1 with
      | (Raise e, s2) => (Raise e, {| w_store := s2; w_trace := trace |})
      | (Ok _, s2) =>
        match put_fault ns cid record s2 with
        | Some e => (Raise e, {| w_store := s2; w_trace := trace |})
        | None =>
          (Ok tt, {| w_store := put ns cid record s2;
                     w_trace := (trace ++ [EvPut ns cid record])%list |})
        end
      end
    end.
Proof.
  unfold _update_memory, update_user_profile, update_business_knowledge,
    save_conversation, store_put.
  unfold Effects.bind, emit. cbn [w_store w_trace].
  fold (conversation_namespace uid) (conversation_record ts msgs).
  destruct (profile_manager_invoke msgs uid (w_store w)) as [[[]|e] s1]; [|reflexivity].
  cbn [w_store w_trace].
  destruct (business_manager_invoke msgs uid s1) as [[[]|e] s2]; [|reflexivity].
  cbn [w_store w_trace].
  destruct (put_fault (conversation_namespace uid) cid (conversation_record ts msgs) s2);
    reflexivity.
Qed.

(** X11: the memory update runs its three steps in order and stops at the
    first that fails, raising its error: the business update sees the
    store the profile update left; the conversation is written, with one
    [put] in the store the business update left, exactly when both
    updates returned and the store does not fail on that [put]; after a
    failure nothing is written by the update itself. *)
Theorem update_memory_in_order
        (cid ts : string) (msgs : list Message.t) (uid : string) (w : world) :
  let out := _update_memory cid ts msgs uid w in
  let puts := List.filter is_put (w_trace (snd out)) in
  let ns := conversation_namespace uid in
  let record := conversation_record ts msgs in
  match profile_manager_invoke msgs uid (w_store w) with
  | (Raise e, s1) =>
    fst out = Raise e /\ w_store (snd out) = s1 /\ puts = List.filter is_put (w_trace w)
  | (Ok _, s1) =>
    match business_manager_invoke msgs uid s1 with
    | (Raise e, s2) =>
      fst out = Raise e /\ w_store (snd out) = s2 /\ puts = List.filter is_put (w_trace w)
    | (Ok _, s2) =>
      match put_fault ns cid record s2 with
      | Some e =>
        fst out = Raise e /\ w_store (snd out) = s2
        /\ puts = List.filter is_put (w_trace w)
      | None =>
        fst out = Ok tt
        /\ w_store (snd out) = put ns cid record s2
        /\ puts = (List.filter is_put (w_trace w) ++ [EvPut ns cid record])%list
      end
    end
  end.
Proof.
  cbv zeta. rewrite update_memory_eq. cbv zeta.
  destruct (profile_manager_invoke msgs uid (w_store w)) as [[u|e] s1].
  - destruct (business_manager_invoke msgs uid s1) as [[u'|e] s2].
    + destruct (put_fault (conversation_namespace uid) cid
                          (conversation_record ts msgs) s2);
        cbn [fst snd w_store w_trace]; repeat split;
        rewrite !List.filter_app; cbn [List.filter is_put]; rewrite ?app_nil_r;
        reflexivity.
    + cbn [fst snd w_store w_trace]; repeat split;
        rewrite !List.filter_app; cbn [List.filter is_put]; rewrite ?app_nil_r;
        reflexivity.
  - cbn [fst snd w_store w_trace]. repeat split.
    rewrite !List.filter_app. cbn [List.filter is_put]. rewrite ?app_nil_r. reflexivity.
Qed.

(** The state the generate stage returns after an answer. *)
Definition answered (state : AssistantState) (response : string) : AssistantState :=
  {| messages := messages state ++ [assistant_message response];
     user_id := user_id state;
     memory_search_results := memory_search_results state;
     spoken_response := Some (optimize_for_speech response) |}.

(** The generate stage on a state with messages, step by step. *)
Lemma generate_response_eq (cid ts : string) (state : AssistantState) (w : world) :
  messages state <> [] ->
  generate_response cid ts state w
  = let w0 := after (EvLog "Generating response...") w in
    match _format_memory_for_prompt (results_of state) with
    | Raise e => (Raise e, w0)
    | Ok memory_context =>
      let w1 := after (EvComplete (prompt_of state memory_context)) w0 in
      match llm_invoke (prompt_of state memory_context) with
      | Raise e => (Raise e, w1)
      | Ok response =>
        let w2 := after (EvLog ("Generated response: " ++ take 100 response ++ "...")) w1 in
        match _update_memory cid ts (messages state ++ [assistant_message response])
                             (user_id state) w2 with
        | (Raise e, w3) => (Raise e, w3)
        | (Ok _, w3) => (Ok (answered state response), w3)
        end
      end
    end.
Proof.
  intros Hne. unfold generate_response.
  destruct (messages state) as [|m0 ms] eqn:Em; [congruence|].
  rewrite <- Em. fold (results_of state).
  unfold Effects.bind at 1. cbn [emit fst snd].
  fold (after (EvLog "Generating response...") w).
  unfold Effects.bind at 1. unfold lift at 1.
  destruct (_format_memory_for_prompt (results_of state)) as [memory_context|e];
    [|reflexivity].
  fold (prompt_of state memory_context).
  unfold Effects.bind at 1. cbn [emit fst snd].
  unfold Effects.bind at 1. unfold lift at 1.
  destruct (llm_invoke (prompt_of state memory_context)) as [response|e]; [|reflexivity].
  unfold Effects.bind at 1. cbn [emit fst snd].
  unfold Effects.bind at 1.
  fold (assistant_message response).
  unfold after, ret. cbn [w_store w_trace].
  match goal with
  | |- context [_update_memory cid ts ?m ?u ?x] =>
    destruct (_update_memory cid ts m u x) as [[[]|e] w3]
  end; reflexivity.
Qed.

(** The memory update adds no completion to the trace. *)
Lemma update_memory_completions cid ts msgs uid (w : world) :
  List.filter is_complete (w_trace (snd (_update_memory cid ts msgs uid w)))
  = List.filter is_complete (w_trace w).
Proof.
  rewrite update_memory_eq. cbv zeta.
  destruct (profile_manager_invoke msgs uid (w_store w)) as [[u|e] s1].
  - destruct (business_manager_invoke msgs uid s1) as [[u'|e] s2];
      [destruct (put_fault (conversation_namespace uid) cid
                           (conversation_record ts msgs) s2)|];
      cbn [fst snd w_store w_trace];
      rewrite !List.filter_app; cbn [List.filter is_complete]; rewrite ?app_nil_r;
      reflexivity.
  - cbn [snd w_trace]. rewrite !List.filter_app. cbn [List.filter is_complete].
    rewrite ?app_nil_r. reflexivity.
Qed.

(** X12: once the memory context is formatted, the generate stage makes
    exactly one completion request, whether the request and the memory
    update then succeed or not.  Its prompt is the system message
    followed by the most recent messages of the state, at most
    [MAX_CONVERSATION_HISTORY] of them, in their order. *)
Theorem generate_response_prompt_window
        (cid ts : string) (state : AssistantState) (w : world) (memory_context : string) :
  messages state <> [] ->
  _format_memory_for_prompt (results_of state) = Ok memory_context ->
  let out := generate_response cid ts state w in
  let recent := last_n Config.MAX_CONVERSATION_HISTORY (messages state) in
  List.filter is_complete (w_trace (snd out))
  = (List.filter is_complete (w_trace w)
     ++ [EvComplete ({| Message.role := "system";
                        Message.content := system_prompt memory_context (user_id state) |}
                       :: recent)])%list
  /\ length recent <= 10
  /\ (exists older, messages state = older ++ recent)%list
  /\ (length (messages state) <= 10 -> recent = messages state).
Proof.
  intros Hne Hfmt out recent. subst out. split.
  - rewrite (generate_response_eq _ _ _ _ Hne). cbv zeta. rewrite Hfmt.
    fold recent. fold (prompt_of state memory_context).
    destruct (llm_invoke (prompt_of state memory_context)) as [response|e].
    + match goal with
      | |- context [_update_memory cid ts ?m ?u ?x] =>
        pose proof (update_memory_completions cid ts m u x) as Hc;
          destruct (_update_memory cid ts m u x) as [[[]|e] w3]
      end; cbn [fst snd] in *; rewrite Hc; unfold after; cbn [w_trace];
        rewrite !List.filter_app; cbn [List.filter is_complete];
        rewrite ?app_nil_r; reflexivity.
    + unfold after. cbn [snd w_trace]. rewrite !List.filter_app.
      cbn [List.filter is_complete]. rewrite ?app_nil_r. reflexivity.
  - split; [apply last_n_length|]. split.
    + exists (firstn (length (messages state) - Config.MAX_CONVERSATION_HISTORY)
                     (messages state)).
      unfold recent, last_n. symmetry. apply firstn_skipn.
    + intros Hlen. unfold recent, last_n, Config.MAX_CONVERSATION_HISTORY.
      replace (length (messages state) - 10) with 0 by lia. reflexivity.
Qed.

(** X13: whenever the generate stage returns on a state with messages, the
    state it returns has exactly one message more, of role assistant and
    with the raw completion as content; the spoken response is the
    cleaned-up completion and contains no [**]; user id and search
    result are those of the input. *)
Theorem generate_response_returns
        (cid ts : string) (state state' : AssistantState) (w w' : world) :
  messages state <> [] ->
  generate_response cid ts state w = (Ok state', w') ->
  exists response,
    messages state' = (messages state ++ [assistant_message response])%list
    /\ spoken_response state' = Some (optimize_for_speech response)
    /\ contains "**" (optimize_for_speech response) = false
    /\ user_id state' = user_id state
    /\ memory_search_results state' = memory_search_results state.
Proof.
  intros Hne. rewrite (generate_response_eq _ _ _ _ Hne). cbv zeta.
  destruct (_format_memory_for_prompt (results_of state)) as [memory_context|e];
    [|discriminate].
  destruct (llm_invoke (prompt_of state memory_context)) as [response|e]; [|discriminate].
  match goal with
  | |- context [_update_memory cid ts ?m ?u ?x] =>
    destruct (_update_memory cid ts m u x) as [[[]|e] w3]
  end; [|discriminate].
  intros [= <- <-]. exists response.
  repeat split. apply optimize_for_speech_no_stars.
Qed.

(** *** The retrieve stage *)

Definition not_from_user (m : Message.t) : Prop := Message.role m <> "user".

Lemma find_user_skips (l rest : list Message.t) :
  Forall not_from_user l ->
  List.find (fun message => String.eqb (Message.role message) "user") (l ++ rest)
  = List.find (fun message => String.eqb (Message.role message) "user") rest.
Proof.
  induction 1 as [|m l Hm _ IH]; [reflexivity|]. cbn [app List.find].
  apply String.eqb_neq in Hm. rewrite Hm. exact IH.
Qed.

Lemma last_user_message_app (pre post : list Message.t) (q : string) :
  Forall not_from_user post ->
  last_user_message (pre ++ user_message q :: post) = Some q.
Proof.
  intros Hpost. unfold last_user_message.
  rewrite rev_app_distr. cbn [rev]. rewrite <- app_assoc.
  rewrite find_user_skips by (apply Forall_rev; exact Hpost). reflexivity.
Qed.

Lemma last_user_message_none (l : list Message.t) :
  Forall not_from_user l -> last_user_message l = None.
Proof.
  intros Hl. unfold last_user_message.
  rewrite <- (app_nil_r (rev l)).
  rewrite find_user_skips by (apply Forall_rev; exact Hl). reflexivity.
Qed.

(** The memory search changes nothing in the world; it fails with the
    validation error of a stored record, or with the error of a search
    on which the store failed. *)
Lemma memory_search_frame (query uid : string) (w : world) :
  snd (Memory_store.search_memory query uid w) = w
  /\ forall e, fst (Memory_store.search_memory query uid w) = Raise e ->
               e = ValidationError \/ search_failure query uid (w_store w) e.
Proof.
  pose proof (search_memory_steps query uid w) as E. cbv zeta in E. rewrite E.
  split; [reflexivity|]. cbn [fst]. intros e. unfold search_failure.
  destruct (search_fault (profile_namespace uid) _ _ _ _) as [e1|];
    [intros [= <-]; auto|].
  destruct (validated_profiles _) as [ps|e1] eqn:Ep;
    [|intros [= <-]; left; exact (validated_profiles_raises _ _ Ep)].
  destruct (search_fault (business_namespace uid) _ _ _ _) as [e1|];
    [intros [= <-]; auto|].
  destruct (validated_entities _) as [es|e2] eqn:Eb;
    [|intros [= <-]; left; exact (validated_entities_raises _ _ Eb)].
  destruct (search_fault (conversation_namespace uid) _ _ _ _) as [e1|];
    [intros [= <-]; auto|discriminate].
Qed.

(** The retrieve stage, by the message it takes as the query. *)
Lemma retrieve_eq (state : AssistantState) (w : world) :
  Agent_nodes.search_memory state w
  = let w1 := after (EvLog "Searching memory...") w in
    match last_user_message (messages state) with
    | Some (String c q) =>
      match fst (Memory_store.search_memory (String c q) (user_id state) w1) with
      | Ok r => (Ok (with_results state r),
                 after (EvLog ("Memory search results: " ++ results_str r)) w1)
      | Raise e => (Raise e, w1)
      end
    | _ => (Ok (with_results state ∅), w1)
    end.
Proof.
  unfold Agent_nodes.search_memory. unfold Effects.bind at 1. cbn [emit].
  fold (after (EvLog "Searching memory...") w). cbv zeta.
  destruct (messages state) as [|m0 ms] eqn:Em; [reflexivity|].
  destruct (last_user_message (m0 :: ms)) as [[|c q]|]; try reflexivity.
  cbn [truthy negb]. unfold Effects.bind, ret, emit.
  destruct (memory_search_frame (String c q) (user_id state)
              (after (EvLog "Searching memory...") w)) as [Hw _].
  destruct (Memory_store.search_memory (String c q) (user_id state)
              (after (EvLog "Searching memory...") w)) as [[r|e] w2];
    cbn [fst snd] in *; subst w2; reflexivity.
Qed.

(** X14: the query of the retrieve stage is the content of the most recent
    message of role user, whatever was said after it by others: the
    stage returns the state with the result of the memory search for
    that content, after logging that result, or fails as the search
    fails. *)
Theorem retrieve_most_recent_user_message
        (state : AssistantState) (pre post : list Message.t) (c : ascii) (q : string)
        (w : world) :
  messages state = (pre ++ user_message (String c q) :: post)%list ->
  Forall not_from_user post ->
  let w1 := after (EvLog "Searching memory...") w in
  Agent_nodes.search_memory state w
  = match fst (Memory_store.search_memory (String c q) (user_id state) w1) with
    | Ok r => (Ok (with_results state r),
               after (EvLog ("Memory search results: " ++ results_str r)) w1)
    | Raise e => (Raise e, w1)
    end.
Proof.
  intros Hm Hpost w1. rewrite retrieve_eq. cbv zeta.
  rewrite Hm, (last_user_message_app _ _ _ Hpost). reflexivity.
Qed.

(** X15: on a state none of whose messages has role user, the retrieve stage
    searches nothing and sets the search result to the empty
    dictionary. *)
Theorem retrieve_without_user_message (state : AssistantState) (w : world) :
  Forall not_from_user (messages state) ->
  Agent_nodes.search_memory state w
  = (Ok (with_results state ∅), after (EvLog "Searching memory...") w).
Proof.
  intros Hm. rewrite retrieve_eq. cbv zeta.
  rewrite (last_user_message_none _ Hm). reflexivity.
Qed.

(** X16: the retrieve stage only logs: the store is not changed, and the
    trace gains the log of its entry and, after a search that returned,
    the log of the results.  When it returns, the state has the same
    messages, user id and spoken response, and a search result that is
    set; when it fails, it has logged its entry only, and the error is
    the validation error of a stored record or the error of a search on
    which the store failed. *)
Theorem retrieve_frame (state : AssistantState) (w : world) :
  let out := Agent_nodes.search_memory state w in
  let w1 := after (EvLog "Searching memory...") w in
  w_store (snd out) = w_store w
  /\ match fst out with
     | Ok state' =>
       messages state' = messages state
       /\ user_id state' = user_id state
       /\ spoken_response state' = spoken_response state
       /\ memory_search_results state' <> None
       /\ (snd out = w1
           \/ exists r, memory_search_results state' = Some r
                        /\ snd out
                           = after (EvLog ("Memory search results: " ++ results_str r)) w1)
     | Raise e =>
       snd out = w1
       /\ (e = ValidationError
           \/ exists query, search_failure query (user_id state) (w_store w) e)
     end.
Proof.
  cbv zeta. rewrite retrieve_eq. cbv zeta.
  destruct (last_user_message (messages state)) as [[|c q]|];
    try (split; [reflexivity|]; cbn; repeat split; try discriminate; left; reflexivity).
  destruct (memory_search_frame (String c q) (user_id state)
              (after (EvLog "Searching memory...") w)) as [_ He].
  destruct (fst (Memory_store.search_memory (String c q) (user_id state)
                   (after (EvLog "Searching memory...") w))) as [r|e].
  - cbn. repeat split; try discriminate. right. exists r. split; reflexivity.
  - cbn [fst snd after w_store]. split; [reflexivity|]. split; [reflexivity|].
    destruct (He e eq_refl) as [->|Hs]; [left; reflexivity|].
    right. exists (String c q). exact Hs.
Qed.

(** *** Whole turns and sessions (src/main.py) *)

(** What the capture stage adds to the messages. *)
Definition heard (transcription : string) : list Message.t :=
  if truthy transcription then [user_message transcription] else [].

Lemma voice_input_returns (transcription : string) (state : AssistantState) (w : world) :
  exists state1 w1,
    voice_input transcription state w = (Ok state1, w1)
    /\ messages state1 = (messages state ++ heard transcription)%list
    /\ user_id state1 = user_id state
    /\ spoken_response state1 = spoken_response state.
Proof.
  destruct transcription as [|c t].
  - exists state. eexists. split; [reflexivity|].
    cbn [heard truthy]. rewrite app_nil_r. auto.
  - eexists. eexists. split.
    + unfold voice_input, Effects.bind, emit, ret. cbn [truthy negb]. reflexivity.
    + cbn. auto.
Qed.

Lemma retrieve_returns (state state' : AssistantState) (w w' : world) :
  Agent_nodes.search_memory state w = (Ok state', w') ->
  messages state' = messages state
  /\ user_id state' = user_id state
  /\ spoken_response state' = spoken_response state.
Proof.
  rewrite retrieve_eq. cbv zeta.
  destruct (last_user_message (messages state)) as [[|c q]|];
    try (intros [= <- <-]; cbn; auto).
  destruct (fst (Memory_store.search_memory _ _ _)) as [r|e]; [|discriminate].
  intros [= <- <-]. cbn. auto.
Qed.

Lemma generate_returns_cases (cid ts : string) (state state' : AssistantState) (w w' : world) :
  generate_response cid ts state w = (Ok state', w') ->
  (messages state = [] /\ state' = state)
  \/ (messages state <> [] /\ exists response, state' = answered state response).
Proof.
  destruct (messages state) as [|m0 ms] eqn:Em.
  - unfold generate_response. rewrite Em. unfold Effects.bind, emit, ret.
    intros [= <- <-]. left. auto.
  - assert (Hne : messages state <> []) by congruence.
    rewrite (generate_response_eq _ _ _ _ Hne). cbv zeta.
    destruct (_format_memory_for_prompt (results_of state)) as [memory_context|e];
      [|discriminate].
    destruct (llm_invoke (prompt_of state memory_context)) as [response|e];
      [|discriminate].
    match goal with
    | |- context [_update_memory cid ts ?m ?u ?x] =>
      destruct (_update_memory cid ts m u x) as [[[]|e] w3]
    end; [|discriminate].
    intros [= <- <-]. right. split; [congruence|]. exists response. reflexivity.
Qed.

Lemma voice_output_returns (state : AssistantState) (w : world) :
  exists w', voice_output state w = (Ok state, w').
Proof.
  unfold voice_output, Effects.bind, emit, ret.
  destruct (truthy_opt (spoken_response state)); [|eexists; reflexivity].
  unfold speak. destruct (negb (truthy (default "" (spoken_response state))));
    eexists; reflexivity.
Qed.

(** A turn that returns, stage by stage. *)
Lemma invoke_returns (i : turn_input) (state state' : AssistantState) (w w' : world) :
  invoke i state w = (Ok state', w') ->
  exists state1 : AssistantState,
    messages state1 = (messages state ++ heard (transcription i))%list
    /\ user_id state1 = user_id state
    /\ ((messages state1 = [] /\ messages state' = []
         /\ user_id state' = user_id state
         /\ spoken_response state' = spoken_response state)
        \/ (messages state1 <> []
            /\ exists response,
                messages state' = (messages state1 ++ [assistant_message response])%list
                /\ user_id state' = user_id state
                /\ spoken_response state' = Some (optimize_for_speech response))).
Proof.
  rewrite invoke_stages. unfold Effects.bind at 1.
  destruct (voice_input_returns (transcription i) state w)
    as (state1 & w1 & -> & Hm1 & Hu1 & Hs1).
  intros H0.
  exists state1. split; [exact Hm1|]. split; [exact Hu1|].
  unfold Effects.bind at 1 in H0.
  destruct (Agent_nodes.search_memory state1 w1) as [[state2|e] w2] eqn:E2;
    [|discriminate].
  destruct (retrieve_returns _ _ _ _ E2) as (Hm2 & Hu2 & Hs2).
  unfold Effects.bind at 1 in H0.
  destruct (generate_response (conversation_id i) (timestamp i) state2 w2)
    as [[state3|e] w3] eqn:E3; [|discriminate].
  rewrite bind_ret in H0.
  destruct (voice_output_returns state3 w3) as [w4 E4]. rewrite E4 in H0.
  injection H0 as <- <-.
  destruct (generate_returns_cases _ _ _ _ _ _ E3) as [[Hnil ->]|[Hne [response ->]]].
  - left. rewrite <- Hm2. repeat split; try congruence.
  - right. split; [congruence|]. exists response. cbn.
    rewrite Hm2. repeat split; congruence.
Qed.

Lemma heard_length (transcription : string) : length (heard transcription) <= 1.
Proof. unfold heard. destruct (truthy transcription); simpl; lia. Qed.

(** X17: a turn that returns only appends to the messages and keeps the user
    id: the new messages are the user message of the transcript, when
    it is not empty, followed by one assistant message, whose cleaned-up
    content is the spoken response of the returned state.  The assistant
    message is missing only when the state has no message at all after
    capture. *)
Theorem turn_appends_messages
        (i : turn_input) (state state' : AssistantState) (w w' : world) :
  invoke i state w = (Ok state', w') ->
  user_id state' = user_id state
  /\ exists reply,
      messages state' = (messages state ++ heard (transcription i) ++ reply)%list
      /\ ((reply = [] /\ messages state' = [])
          \/ exists response,
              reply = [assistant_message response]
              /\ spoken_response state' = Some (optimize_for_speech response)).
Proof.
  intros Hrun.
  destruct (invoke_returns _ _ _ _ _ Hrun) as (state1 & Hm1 & Hu1 & Hcases).
  destruct Hcases as [(Hnil & Hnil' & Hu & _)|(Hne & response & Hm & Hu & Hs)].
  - split; [exact Hu|]. exists []. split.
    + rewrite app_nil_r, <- Hm1. congruence.
    + left. auto.
  - split; [exact Hu|]. exists [assistant_message response]. split.
    + rewrite Hm, Hm1, <- app_assoc. reflexivity.
    + right. exists response. auto.
Qed.

(** X18: a session that returns only appends to the messages, at most two
    for each turn, and keeps the user id. *)
Theorem session_appends_messages
        (turns : list turn_input) (state state' : AssistantState) (w w' : world) :
  run_assistant turns state w = (Ok state', w') ->
  user_id state' = user_id state
  /\ exists added,
      messages state' = (messages state ++ added)%list
      /\ length added <= 2 * length turns.
Proof.
  revert state w. induction turns as [|i turns IH]; intros state w.
  - intros [= <- <-]. split; [reflexivity|]. exists []. rewrite app_nil_r. auto.
  - cbn [run_assistant]. unfold Effects.bind at 1.
    destruct (invoke i state w) as [[state1|e] w1] eqn:E1; [|discriminate].
    intros Hrest. destruct (IH _ _ Hrest) as (Hu & added & Hm & Hlen).
    destruct (invoke_returns _ _ _ _ _ E1) as (s1 & Hm1 & Hu1 & Hcases).
    pose proof (heard_length (transcription i)) as Hh.
    destruct Hcases as [(Hnil & Hnil' & Hu' & _)|(Hne & response & Hm' & Hu' & _)].
    + split; [congruence|]. rewrite Hm1 in Hnil.
      apply app_eq_nil in Hnil as [Hn1 Hn2].
      exists added. rewrite Hm, Hnil', Hn1. split; [reflexivity|].
      cbn [length]. lia.
    + split; [congruence|].
      exists (heard (transcription i) ++ assistant_message response :: added)%list.
      split.
      * rewrite Hm, Hm', Hm1, <- !app_assoc. reflexivity.
      * rewrite length_app. cbn [length]. lia.
Qed.

(** X20: a silent turn at the start of a session, when there is no message
    yet: the turn returns, the messages stay empty, the search result
    is the empty dictionary, no completion is requested, nothing is
    written to the store, and the only playback is the fallback
    prompt. *)
Theorem silent_first_turn
        (u cid ts : string) (r : option (gmap string (list hit))) (w : world) :
  let out := invoke {| transcription := ""; conversation_id := cid; timestamp := ts |}
                    {| messages := []; user_id := u;
                       memory_search_results := r; spoken_response := None |} w in
  fst out = Ok {| messages := []; user_id := u;
                  memory_search_results := Some ∅; spoken_response := None |}
  /\ w_store (snd out) = w_store w
  /\ List.filter is_complete (w_trace (snd out)) = List.filter is_complete (w_trace w)
  /\ List.filter is_speak (w_trace (snd out))
     = (List.filter is_speak (w_trace w) ++ [EvSpeak fallback_prompt])%list.
Proof.
  intros out.
  assert (Etrace : w_trace (snd out)
                   = (((((w_trace w ++ [EvLog "Recording user input..."])
                          ++ [EvSpeak fallback_prompt])
                         ++ [EvLog "Searching memory..."])
                        ++ [EvLog "Generating response..."])
                       ++ [EvLog "Converting response to speech..."])%list)
    by reflexivity.
  split; [reflexivity|]. split; [reflexivity|]. rewrite Etrace.
  rewrite !List.filter_app. cbn [List.filter is_complete is_speak].
  rewrite !app_nil_r. split; reflexivity.
Qed.

End Stages.
End AgentMore.

(** ** The further properties at concrete inputs *)

Module MoreRuns.
Import PyStr Schemas Store Effects Voice_io Memory_store Agent_nodes Main.
Import VoiceFacts StoreFacts MemoryFacts AgentFacts Scenario.
Import VoiceMore MemoryMore AgentMore.

(** In these runs the store does not fail. *)
#[local] Existing Instance reliable.

Lemma optimize_for_speech_plain_text_witness :
  (forall k, match_url (drop k "see you at noon") = None)
  /\ contains two_newlines "see you at noon" = false
  /\ contains "**" "see you at noon" = false
  /\ optimize_for_speech "see you at noon" = "see you at noon".
Proof.
  assert (H1 : forall k, match_url (drop k "see you at noon") = None).
  { apply clean_positions; [reflexivity|]. repeat split. }
  assert (H2 : contains two_newlines "see you at noon" = false) by (vm_compute; reflexivity).
  assert (H3 : contains "**" "see you at noon" = false) by (vm_compute; reflexivity).
  split; [exact H1|]. split; [exact H2|]. split; [exact H3|].
  exact (optimize_for_speech_plain_text "see you at noon" H1 H2 H3).
Defined.

Lemma conversation_writes_keep_other_users_witness :
  "guest" <> "default-user"
  /\ fst (get_conversation_context (pydantic := strict_pydantic) (index := insertion_order)
            "guest"
            (snd (save_conversation "0b0e6d6e-8c7a-4c55-9d0c-3f1f4b5a6c7d"
                                    "2025-01-01T10:00:00" [hi] "default-user"
                                    store_with_context)))
     = fst (get_conversation_context (pydantic := strict_pydantic)
              (index := insertion_order) "guest" store_with_context).
Proof.
  assert (H : "guest" <> "default-user") by discriminate.
  split; [exact H|].
  exact (proj1 (proj2 (conversation_writes_keep_other_users
                         (pydantic := strict_pydantic) (index := insertion_order)
                         "0b0e6d6e-8c7a-4c55-9d0c-3f1f4b5a6c7d" "2025-01-01T10:00:00"
                         [hi] ConversationContext.default "default-user" "guest"
                         store_with_context H))).
Defined.

Lemma format_memory_no_hits_witness :
  no_hits (search_results [] [] []) "user_profile"
  /\ no_hits (search_results [] [] []) "business_knowledge"
  /\ no_hits (search_results [] [] []) "conversation_history"
  /\ _format_memory_for_prompt (services := fixed_answer) (search_results [] [] []) = Ok "".
Proof.
  destruct (search_results_lookup [] [] []) as (L1 & L2 & L3).
  assert (H1 : no_hits (search_results [] [] []) "user_profile") by (right; exact L1).
  assert (H2 : no_hits (search_results [] [] []) "business_knowledge") by (right; exact L2).
  assert (H3 : no_hits (search_results [] [] []) "conversation_history")
    by (right; exact L3).
  split; [exact H1|]. split; [exact H2|]. split; [exact H3|].
  exact (format_memory_no_hits (services := fixed_answer) _ H1 H2 H3).
Defined.

Lemma generate_response_prompt_window_witness :
  messages one_message <> []
  /\ _format_memory_for_prompt (services := fixed_answer) (results_of one_message) = Ok ""
  /\ List.filter is_complete
       (w_trace (snd (generate_response (policy := quiet_policy) (services := fixed_answer)
                                        "id-1" "2025-01-01T10:00:00"
                                        one_message empty_world)))
     = [EvComplete [ {| Message.role := "system";
                        Message.content := system_prompt "" "default-user" |}; hi ]].
Proof.
  assert (H1 : messages one_message <> []) by discriminate.
  assert (H2 : _format_memory_for_prompt (services := fixed_answer)
                 (results_of one_message) = Ok "") by (vm_compute; reflexivity).
  split; [exact H1|]. split; [exact H2|].
  exact (proj1 (generate_response_prompt_window
                  (policy := quiet_policy) (services := fixed_answer)
                  "id-1" "2025-01-01T10:00:00" one_message empty_world "" H1 H2)).
Defined.

(** The state a run returned, or a default when it raised. *)
Definition state_of (out : result AssistantState * world) (otherwise : AssistantState)
  : AssistantState :=
  match fst out with
  | Ok state => state
  | Raise _ => otherwise
  end.

Definition answered_hi : result AssistantState * world :=
  generate_response (policy := quiet_policy) (services := fixed_answer)
                    "id-1" "2025-01-01T10:00:00" one_message empty_world.

Lemma generate_response_returns_witness :
  messages one_message <> []
  /\ answered_hi = (Ok (state_of answered_hi one_message), snd answered_hi)
  /\ exists response,
      messages (state_of answered_hi one_message)
      = (messages one_message ++ [assistant_message response])%list
      /\ spoken_response (state_of answered_hi one_message)
         = Some (optimize_for_speech response)
      /\ contains "**" (optimize_for_speech response) = false
      /\ user_id (state_of answered_hi one_message) = user_id one_message
      /\ memory_search_results (state_of answered_hi one_message)
         = memory_search_results one_message.
Proof.
  assert (H1 : messages one_message <> []) by discriminate.
  assert (H2 : answered_hi = (Ok (state_of answered_hi one_message), snd answered_hi))
    by (vm_compute; reflexivity).
  split; [exact H1|]. split; [exact H2|].
  exact (generate_response_returns (policy := quiet_policy) (services := fixed_answer)
           "id-1" "2025-01-01T10:00:00" one_message _ empty_world _ H1 H2).
Defined.

(** A state in which the assistant spoke last. *)
Definition after_answer : AssistantState :=
  {| messages := [user_message "hi"; assistant_message "Hello **there**"];
     user_id := "default-user";
     memory_search_results := None; spoken_response := None |}.

Lemma retrieve_most_recent_user_message_witness :
  messages after_answer = ([] ++ user_message "hi" :: [assistant_message "Hello **there**"])%list
  /\ Forall not_from_user [assistant_message "Hello **there**"]
  /\ Agent_nodes.search_memory (pydantic := strict_pydantic) (index := insertion_order)
                                (services := fixed_answer) after_answer empty_world
     = match fst (Memory_store.search_memory (pydantic := strict_pydantic)
                    (index := insertion_order) "hi" "default-user"
                    (after (EvLog "Searching memory...") empty_world)) with
       | Ok r =>
         (Ok (with_results after_answer r),
          after (EvLog ("Memory search results: "
                          ++ results_str (Services := fixed_answer) r))
                (after (EvLog "Searching memory...") empty_world))
       | Raise e => (Raise e, after (EvLog "Searching memory...") empty_world)
       end.
Proof.
  assert (H1 : messages after_answer
               = ([] ++ user_message "hi" :: [assistant_message "Hello **there**"])%list)
    by reflexivity.
  assert (H2 : Forall not_from_user [assistant_message "Hello **there**"]).
  { constructor; [|constructor]. unfold not_from_user. cbn. discriminate. }
  split; [exact H1|]. split; [exact H2|].
  exact (retrieve_most_recent_user_message
           (pydantic := strict_pydantic) (index := insertion_order)
           (services := fixed_answer)
           after_answer [] _ "h" "i" empty_world H1 H2).
Defined.

(** A state seeded with a system message only. *)
Definition seeded : AssistantState :=
  {| messages := [ {| Message.role := "system"; Message.content := "be brief" |} ];
     user_id := "default-user";
     memory_search_results := None; spoken_response := None |}.

Lemma retrieve_without_user_message_witness :
  Forall not_from_user (messages seeded)
  /\ Agent_nodes.search_memory (pydantic := strict_pydantic) (index := insertion_order)
       (services := fixed_answer) seeded empty_world
     = (Ok (with_results seeded ∅), after (EvLog "Searching memory...") empty_world).
Proof.
  assert (H : Forall not_from_user (messages seeded)).
  { constructor; [|constructor]. unfold not_from_user. cbn. discriminate. }
  split; [exact H|].
  exact (retrieve_without_user_message (pydantic := strict_pydantic)
           (index := insertion_order) (services := fixed_answer) seeded empty_world H).
Defined.

(** A business entity with an ASCII type and one attribute. *)
Definition apollo : BusinessEntity.t :=
  {| BusinessEntity.name := "Apollo";
     BusinessEntity.entity_type := "project";
     BusinessEntity.attributes := [("status", PyStr "active")];
     BusinessEntity.relationships := [] |}.

Lemma format_business_block_witness :
  is_ascii (BusinessEntity.entity_type apollo) = true
  /\ _format_memory_for_prompt (services := fixed_answer)
       (search_results [] [HEntity apollo] [])
     = Ok "
BUSINESS KNOWLEDGE:
- Project: Apollo
  * status: active"
  /\ hd "" (entity_lines (H := fixed_answer) apollo) = "- Project: Apollo".
Proof.
  assert (H : is_ascii (BusinessEntity.entity_type apollo) = true) by reflexivity.
  split; [exact H|]. split.
  - exact (proj1 (format_business_block (services := fixed_answer) apollo [])).
  - exact (proj2 (proj2 (format_business_block (services := fixed_answer) apollo [])) H).
Defined.

(** The memory update when the store has become unavailable: both
    updates return, the [put] of the conversation fails. *)
Lemma update_memory_in_order_witness :
  let out := _update_memory (faults := unavailable) (policy := quiet_policy)
                            "id-1" "2025-01-01T10:00:00" [hi] "default-user"
                            empty_world in
  fst out = Raise (ServiceError "store unavailable")
  /\ w_store (snd out) = []
  /\ List.filter is_put (w_trace (snd out)) = [].
Proof.
  exact (update_memory_in_order (faults := unavailable) (policy := quiet_policy)
           "id-1" "2025-01-01T10:00:00" [hi] "default-user" empty_world).
Defined.

(** The retrieve stage when the store has become unavailable: the first
    search fails, after the entry was logged. *)
Lemma retrieve_frame_witness :
  let out := Agent_nodes.search_memory (pydantic := strict_pydantic)
               (index := insertion_order) (faults := unavailable)
               (services := fixed_answer) one_message empty_world in
  fst out = Raise (ServiceError "store unavailable")
  /\ w_store (snd out) = []
  /\ snd out = after (EvLog "Searching memory...") empty_world
  /\ (ServiceError "store unavailable" = ValidationError
      \/ exists query,
          search_failure (H := unavailable) query "default-user" []
                         (ServiceError "store unavailable")).
Proof.
  cbv zeta. split; [reflexivity|].
  pose proof (retrieve_frame (pydantic := strict_pydantic) (index := insertion_order)
                (faults := unavailable) (services := fixed_answer)
                one_message empty_world) as [Hs Hf].
  split; [exact Hs|]. exact Hf.
Defined.

Definition talk_turn : turn_input :=
  {| transcription := "what is new";
     conversation_id := "5f3c2a1e-9d8b-4e7f-a6c5-b4d3e2f1a0b9";
     timestamp := "2025-01-01T10:05:00" |}.

Definition talk_run : result AssistantState * world :=
  invoke (pydantic := strict_pydantic) (index := insertion_order)
         (policy := quiet_policy) (services := fixed_answer)
         talk_turn (initial_state "default-user") empty_world.

Lemma turn_appends_messages_witness :
  talk_run = (Ok (state_of talk_run one_message), snd talk_run)
  /\ user_id (state_of talk_run one_message) = user_id (initial_state "default-user")
  /\ exists reply,
      messages (state_of talk_run one_message)
      = (messages (initial_state "default-user")
         ++ heard (transcription talk_turn) ++ reply)%list
      /\ ((reply = [] /\ messages (state_of talk_run one_message) = [])
          \/ exists response,
              reply = [assistant_message response]
              /\ spoken_response (state_of talk_run one_message)
                 = Some (optimize_for_speech response)).
Proof.
  assert (H : talk_run = (Ok (state_of talk_run one_message), snd talk_run))
    by (vm_compute; reflexivity).
  split; [exact H|].
  exact (turn_appends_messages (pydantic := strict_pydantic) (index := insertion_order)
           (policy := quiet_policy) (services := fixed_answer)
           talk_turn (initial_state "default-user") _ empty_world _ H).
Defined.

Definition session_run : result AssistantState * world :=
  run_assistant (pydantic := strict_pydantic) (index := insertion_order)
                (policy := quiet_policy) (services := fixed_answer)
                [talk_turn; silent_turn] (initial_state "default-user") empty_world.

Lemma session_appends_messages_witness :
  session_run = (Ok (state_of session_run one_message), snd session_run)
  /\ user_id (state_of session_run one_message) = user_id (initial_state "default-user")
  /\ exists added,
      messages (state_of session_run one_message)
      = (messages (initial_state "default-user") ++ added)%list
      /\ length added <= 2 * length [talk_turn; silent_turn].
Proof.
  assert (H : session_run = (Ok (state_of session_run one_message), snd session_run))
    by (vm_compute; reflexivity).
  split; [exact H|].
  exact (session_appends_messages (pydantic := strict_pydantic) (index := insertion_order)
           (policy := quiet_policy) (services := fixed_answer)
           [talk_turn; silent_turn] (initial_state "default-user") _ empty_world _ H).
Defined.

End MoreRuns.
